(** * Egebot: the material catalog and its guarded upload session

    A shallow embedding of [bot.py]: the catalog [materials], its
    persistence ([load_materials], [save_materials]), the aiogram handlers
    and the order in which the dispatcher tries them.

    Conventions of the embedding.
    - Python values that reach the catalog are the ones [json.load] can
      produce; they are the inhabitants of [pyval].  The tuple
      [(file_type, file_id)] built by [handle_file_upload] and the
      two-element list [json.load] returns for it are both [PList [_; _]]:
      the program only unpacks and serialises them.  JSON numbers with a
      fraction or an exponent are not represented.
    - Strings are byte strings; the character classes of [str.split],
      [str.isdigit] and [int] are the ASCII ones.  Integers are unbounded
      and [str] and [int] convert them whatever their number of digits.
    - The [json] module is the boundary of the file model: a file holds a
      JSON document (the value [json.load] returns for it) or text that
      [json.load] rejects.
    - A handler returns the state it leaves behind, what it sent, and the
      exception that ended it, if any. *)

From Stdlib Require Import ZArith String Ascii List Lia.
From stdpp Require Import base decidable option list gmap strings pretty sorting.

Local Open Scope Z_scope.

(** ** Text primitives of Python used by the bot *)

Module PyStr.

(** [str.isspace] on one ASCII character: TAB..CR, FS..US and SPACE. *)
Definition is_space (c : ascii) : bool :=
  let n := N_of_ascii c in
  ((9 <=? n) && (n <=? 13) || (28 <=? n) && (n <=? 32))%N.

(** [str.isdigit] on one ASCII character. *)
Definition is_digit (c : ascii) : bool :=
  let n := N_of_ascii c in ((48 <=? n) && (n <=? 57))%N.

Definition digit_val (c : ascii) : N := (N_of_ascii c - 48)%N.

Fixpoint lstrip (s : string) : string :=
  match s with
  | String c s' => if is_space c then lstrip s' else s
  | EmptyString => EmptyString
  end.

Fixpoint rstrip (s : string) : string :=
  match s with
  | String c s' =>
      match rstrip s' with
      | EmptyString => if is_space c then EmptyString else String c EmptyString
      | r => String c r
      end
  | EmptyString => EmptyString
  end.

(** [s.strip()] *)
Definition strip (s : string) : string := rstrip (lstrip s).

(** [s.isdigit()]: every character is a digit and there is at least one. *)
Fixpoint all_digits (s : string) : bool :=
  match s with
  | String c s' => is_digit c && all_digits s'
  | EmptyString => true
  end.

Definition isdigit (s : string) : bool :=
  match s with
  | EmptyString => false
  | _ => all_digits s
  end.

(** The digits of an [int] literal, read left to right.  [prev] tells
    whether the previous character was a digit: an underscore may only
    stand between two digits, and the literal ends on a digit. *)
Fixpoint read_digits (s : string) (prev : bool) (acc : N) : option N :=
  match s with
  | EmptyString => if prev then Some acc else None
  | String c s' =>
      if is_digit c then read_digits s' true (acc * 10 + digit_val c)%N
      else if (Ascii.eqb c "_" && prev)%bool then read_digits s' false acc
      else None
  end.

(** [int(s)] in base ten; [None] stands for [ValueError]. *)
Definition int (s : string) : option Z :=
  match strip s with
  | String c d =>
      if Ascii.eqb c "-" then (λ n, - Z.of_N n) <$> read_digits d false 0%N
      else if Ascii.eqb c "+" then Z.of_N <$> read_digits d false 0%N
      else Z.of_N <$> read_digits (String c d) false 0%N
  | EmptyString => None
  end.

(** [str(n)] for an integer. *)
Definition str (n : Z) : string := pretty n.

(** The first whitespace-delimited word of [s] and what follows it. *)
Fixpoint break_space (s : string) : string * string :=
  match s with
  | String c s' =>
      if is_space c then (EmptyString, s)
      else let '(w, r) := break_space s' in (String c w, r)
  | EmptyString => (EmptyString, EmptyString)
  end.

(** [s.split(maxsplit=1)]: leading whitespace is dropped, the first word
    is cut off, and the remainder (leading whitespace dropped, trailing
    whitespace kept) is the second field when it is not empty. *)
Definition split_maxsplit1 (s : string) : list string :=
  match lstrip s with
  | EmptyString => []
  | s1 =>
      let '(w, r) := break_space s1 in
      match lstrip r with
      | EmptyString => [w]
      | r' => [w; r']
      end
  end.

(** [s.split(sep)] for a one-character separator: the fields between the
    separators, empty ones included. *)
Fixpoint split_on (sep : ascii) (s : string) : list string :=
  match s with
  | EmptyString => [EmptyString]
  | String c s' =>
      match split_on sep s' with
      | f :: fs => if Ascii.eqb c sep then EmptyString :: f :: fs else String c f :: fs
      | [] => [String c EmptyString]
      end
  end.

(** [s.startswith(p)] *)
Definition startswith (p s : string) : bool := String.prefix p s.

(** [s.partition(sep)] restricted to what the command filter reads: the
    text before the first [sep] and, when [sep] occurs, the text after. *)
Fixpoint partition (sep : ascii) (s : string) : string * option string :=
  match s with
  | EmptyString => (EmptyString, None)
  | String c s' =>
      if Ascii.eqb c sep then (EmptyString, Some s')
      else let '(a, b) := partition sep s' in (String c a, b)
  end.

(** [s.lower()] on ASCII letters. *)
Definition lower_char (c : ascii) : ascii :=
  let n := N_of_ascii c in
  if ((65 <=? n) && (n <=? 90))%N then ascii_of_N (n + 32) else c.

Fixpoint lower (s : string) : string :=
  match s with
  | String c s' => String (lower_char c) (lower s')
  | EmptyString => EmptyString
  end.

End PyStr.

(** ** Values, exceptions and the catalog *)

#[local] Set Warnings "-register-all".

(** What [json.load] can return (and hence what the catalog can hold). *)
Inductive pyval : Type :=
| PNone
| PBool (b : bool)
| PInt (n : Z)
| PStr (s : string)
| PList (l : list pyval)
| PDict (d : list (string * pyval)).

Inductive exn : Type :=
| FileNotFoundError | JSONDecodeError | OSError
| AttributeError | ValueError | TypeError | IndexError | KeyError
| TelegramError.

Inductive result (A : Type) : Type :=
| Ok (a : A)
| Raise (e : exn).
Arguments Ok {A} a.
Arguments Raise {A} e.

(** A Python [dict] with integer keys: its items in insertion order.
    Assigning to a key that is present replaces the value in place,
    assigning to a new key adds the item at the end. *)
Definition pydict : Type := list (Z * pyval).

Fixpoint dict_get (d : pydict) (k : Z) : option pyval :=
  match d with
  | [] => None
  | (k', v) :: d' => if decide (k' = k) then Some v else dict_get d' k
  end.

(** [k in d] *)
Definition dict_mem (d : pydict) (k : Z) : bool :=
  match dict_get d k with Some _ => true | None => false end.

(** [d[k] = v] *)
Fixpoint dict_set (d : pydict) (k : Z) (v : pyval) : pydict :=
  match d with
  | [] => [(k, v)]
  | (k', v') :: d' =>
      if decide (k' = k) then (k, v) :: d' else (k', v') :: dict_set d' k v
  end.

Definition dict_keys (d : pydict) : list Z := d.*1.

(** [bool(v)] *)
Definition truthy (v : pyval) : bool :=
  match v with
  | PNone => false
  | PBool b => b
  | PInt n => negb (n =? 0)
  | PStr s => negb (String.eqb s "")
  | PList l => match l with [] => false | _ => true end
  | PDict d => match d with [] => false | _ => true end
  end.

Fixpoint chars (s : string) : list pyval :=
  match s with
  | String c s' => PStr (String c EmptyString) :: chars s'
  | EmptyString => []
  end.

(** [iter(v)]: the elements a [for] statement runs through. *)
Definition py_iter (v : pyval) : result (list pyval) :=
  match v with
  | PList l => Ok l
  | PStr s => Ok (chars s)
  | PDict d => Ok (PStr <$> d.*1)
  | PNone | PBool _ | PInt _ => Raise TypeError
  end.

(** [a, b = v] *)
Definition unpack2 (v : pyval) : result (pyval * pyval) :=
  match py_iter v with
  | Raise e => Raise e
  | Ok [a; b] => Ok (a, b)
  | Ok _ => Raise ValueError
  end.

(** [len(v)] *)
Definition py_len (v : pyval) : result nat :=
  match v with
  | PList l => Ok (length l)
  | PStr s => Ok (String.length s)
  | PDict d => Ok (length d)
  | PNone | PBool _ | PInt _ => Raise TypeError
  end.

(** ** Durable storage *)

(** The state of [DATA_FILE]. *)
Inductive file : Type :=
| Missing                     (* no such file *)
| Unparsable                  (* text [json.load] rejects, e.g. a truncated document *)
| Document (raw : pyval).     (* a JSON document, as [json.load] returns it *)

(** What [json.dump] writes for the catalog: integer keys become their
    decimal strings, the values are written as they are. *)
Definition json_dump (materials : pydict) : pyval :=
  PDict ((λ '(k, v), (PyStr.str k, v)) <$> materials).

(** [raw.items()] *)
Definition py_items (raw : pyval) : result (list (string * pyval)) :=
  match raw with
  | PDict d => Ok d
  | _ => Raise AttributeError
  end.

(** [{int(k): v for k, v in items}], continuing from [acc]. *)
Fixpoint int_keys (items : list (string * pyval)) (acc : pydict) : result pydict :=
  match items with
  | [] => Ok acc
  | (k, v) :: items' =>
      match PyStr.int k with
      | Some n => int_keys items' (dict_set acc n v)
      | None => Raise ValueError
      end
  end.

(** [load_materials]: the new value of [materials], or the exception that
    leaves the [try] statement. Only [FileNotFoundError] is caught. *)
Definition load_materials (f : file) : result pydict :=
  match f with
  | Missing => Ok []
  | Unparsable => Raise JSONDecodeError
  | Document raw =>
      match py_items raw with
      | Ok items => int_keys items []
      | Raise e => Raise e
      end
  end.

(** How one run of [save_materials] ends, as decided by the file system. *)
Inductive write_outcome : Type :=
| WriteOk           (* the whole document reaches the file *)
| OpenRefused       (* [open(DATA_FILE, "w")] raises: nothing is touched *)
| WriteInterrupted. (* the file was truncated by [open], [json.dump] did not finish *)

(** [save_materials]: the file afterwards and the exception raised. *)
Definition save_materials (w : write_outcome) (materials : pydict) (f : file)
  : file * option exn :=
  match w with
  | WriteOk => (Document (json_dump materials), None)
  | OpenRefused => (f, Some OSError)
  | WriteInterrupted => (Unparsable, Some OSError)
  end.

(** Lines 138-140 of [handle_file_upload]:
    [if task_id not in materials: materials[task_id] = []] and then
    [materials[task_id].append((file_type, file_id))].
    Only a list has [append]. *)
Definition append_material (materials : pydict) (task_id : Z) (entry : pyval)
  : result pydict :=
  let m1 := if dict_mem materials task_id then materials
            else dict_set materials task_id (PList []) in
  match dict_get m1 task_id with
  | Some (PList l) => Ok (dict_set m1 task_id (PList (l ++ [entry])))
  | Some _ => Raise AttributeError
  | None => Raise KeyError
  end.

Definition media_entry (file_type file_id : string) : pyval :=
  PList [PStr file_type; PStr file_id].

(** ** Messages, replies and the bot state *)

(** What an incoming message carries.  Telegram sets exactly one of the
    payload fields; media messages are taken without a caption. *)
Inductive content : Type :=
| Text (text : string)
| DocumentMsg (file_id : string)
| VideoMsg (file_id : string)
| AudioMsg (file_id : string)
| OtherMsg.

Record message : Type := Message {
  chat_id : Z;
  from_user : Z;
  body : content
}.

Definition text_of (m : message) : option string :=
  match body m with Text t => Some t | _ => None end.
Definition document_of (m : message) : option string :=
  match body m with DocumentMsg f => Some f | _ => None end.
Definition video_of (m : message) : option string :=
  match body m with VideoMsg f => Some f | _ => None end.
Definition audio_of (m : message) : option string :=
  match body m with AudioMsg f => Some f | _ => None end.

(** Calls of the Bot API issued by the handlers. *)
Inductive action : Type :=
| AnswerCallback
| Answer (text : string)
| AnswerMarkup (text : string) (buttons : list (string * string)) (width : nat)
| Reply (text : string)
| AnswerDocument (file_id : pyval)
| AnswerVideo (file_id : pyval)
| AnswerAudio (file_id : pyval).

(** What a handler leaves in its trace: a call with its outcome
    ([true]: delivered, [false]: the call raised), or a [logging.error]
    record for a file that could not be sent. *)
Inductive event : Type :=
| Call (a : action) (delivered : bool)
| LogError (file_id : pyval).

(** The transport decides each call: [tr n a] tells whether call [a],
    issued after [n] earlier calls of the same handler run, is delivered. *)
Definition transport : Type := nat → action → bool.

Record env : Type := Env {
  tr : transport;
  write : write_outcome
}.

Record config : Type := Config {
  ADMIN_IDS : list Z;
  bot_username : string
}.

(** The FSM storage keeps, per chat and user, the state
    [AddMaterial.waiting_for_file] together with its data [task_id]:
    [cmd_add] sets both and [state.clear()] drops both, so a key is either
    absent (no state) or bound to the task being filled. *)
Record bot : Type := Bot {
  materials : pydict;
  fsm : gmap (Z * Z) Z;
  data_file : file
}.

Definition fsm_key (m : message) : Z * Z := (chat_id m, from_user m).

Record outcome : Type := Outcome {
  after : bot;
  trace : list event;
  raised : option exn
}.

Definition is_admin (cfg : config) (user_id : Z) : bool :=
  bool_decide (user_id ∈ ADMIN_IDS cfg).

(** One awaited API call at position [n], ending the handler. *)
Definition send (t : transport) (n : nat) (a : action) : list event * option exn :=
  ([Call a (t n a)], if t n a then None else Some TelegramError).

Definition finish (st : bot) (r : list event * option exn) : outcome :=
  Outcome st r.1 r.2.

Definition nl : string := String (ascii_of_nat 10) EmptyString.

(** *** The texts *)

Definition msg_choose : string := "📚 Выберите номер задания (от 1 до 19):".
Definition msg_no_material (task_id : Z) : string :=
  "❌ Материал для задания " +:+ PyStr.str task_id +:+ " ещё не добавлен.".
Definition msg_send_failed (task_id : Z) : string :=
  "⚠️ Не удалось отправить один из файлов для задания " +:+ PyStr.str task_id +:+ ".".
Definition msg_not_admin : string := "⛔ У вас нет прав администратора.".
Definition msg_add_usage : string :=
  "❗ Используйте: /add <номер_задания> (например: /add 5)".
Definition msg_add_range : string := "❗ Номер задания должен быть от 1 до 19.".
Definition msg_send_file (task_id : Z) : string :=
  "📎 Отправьте файл (PDF, видео или аудио) для задания " +:+ PyStr.str task_id +:+ "." +:+ nl
  +:+ "Вы можете отправить несколько файлов для одного задания." +:+ nl
  +:+ "Для завершения введите /done.".
Definition msg_no_type : string :=
  "❌ Не удалось определить тип файла. Попробуйте снова.".
Definition msg_added (task_id : Z) : string :=
  "✅ Файл добавлен к заданию " +:+ PyStr.str task_id
  +:+ ". Можете отправить ещё файл или /done для завершения.".
Definition msg_done : string := "✅ Режим добавления материалов завершён.".
Definition msg_is_admin : string := "✅ Вы администратор.".
Definition msg_is_not_admin : string := "❌ Вы не администратор.".
Definition msg_list_empty : string := "📭 Нет загруженных материалов.".
Definition msg_list_head : string := "📋 Список заданий с материалами:".
Definition msg_list_line (task_id : Z) (count : nat) : string :=
  "Задание " +:+ PyStr.str task_id +:+ ": " +:+ pretty count +:+ " файл(ов)".
Definition msg_unknown : string := "Используйте /start для выбора задания.".

(** ** The handlers *)

(** [cmd_start]: nineteen buttons, five to a row. *)
Definition task_buttons : list (string * string) :=
  (λ i, (PyStr.str i, "task_" +:+ PyStr.str i)) <$> seqZ 1 19.

Definition cmd_start (e : env) (st : bot) : outcome :=
  finish st (send (tr e) 0 (AnswerMarkup msg_choose task_buttons 5)).

(** The branch of [process_task_selection] chosen by [file_type]; [None]
    when no branch of the [if]/[elif] chain applies. *)
Definition media_action (file_type file_id : pyval) : option action :=
  match file_type with
  | PStr s =>
      if String.eqb s "document" then Some (AnswerDocument file_id)
      else if String.eqb s "video" then Some (AnswerVideo file_id)
      else if String.eqb s "audio" then Some (AnswerAudio file_id)
      else None
  | _ => None
  end.

(** The [for] loop of [process_task_selection] over the remaining
    [entries], [n] calls having been issued so far.  A send that raises is
    logged and answered with a warning inside the loop; unpacking an entry
    and the warning itself are outside any [try]. *)
Fixpoint send_all (t : transport) (task_id : Z) (entries : list pyval) (n : nat)
  : list event * option exn :=
  match entries with
  | [] => ([], None)
  | entry :: rest =>
      match unpack2 entry with
      | Raise x => ([], Some x)
      | Ok (file_type, file_id) =>
          match media_action file_type file_id with
          | None => send_all t task_id rest n
          | Some a =>
              if t n a then
                let '(evs, r) := send_all t task_id rest (S n) in
                (Call a true :: evs, r)
              else
                let w := Answer (msg_send_failed task_id) in
                if t (S n) w then
                  let '(evs, r) := send_all t task_id rest (S (S n)) in
                  (Call a false :: LogError file_id :: Call w true :: evs, r)
                else
                  ([Call a false; LogError file_id; Call w false], Some TelegramError)
          end
      end
  end.

(** [int(callback.data.split("_")[1])] *)
Definition task_of_data (data : string) : result Z :=
  match PyStr.split_on "_" data !! 1%nat with
  | None => Raise IndexError
  | Some field =>
      match PyStr.int field with
      | None => Raise ValueError
      | Some task_id => Ok task_id
      end
  end.

(** [process_task_selection], for callback data that starts with "task_". *)
Definition process_task_selection (e : env) (st : bot) (data : string) : outcome :=
  match task_of_data data with
  | Raise x => Outcome st [] (Some x)
  | Ok task_id =>
      if negb (tr e 0%nat AnswerCallback) then
        Outcome st [Call AnswerCallback false] (Some TelegramError)
      else
        match dict_get (materials st) task_id with
        | None =>
            let r := send (tr e) 1 (Answer (msg_no_material task_id)) in
            Outcome st (Call AnswerCallback true :: r.1) r.2
        | Some v =>
            if negb (truthy v) then
              let r := send (tr e) 1 (Answer (msg_no_material task_id)) in
              Outcome st (Call AnswerCallback true :: r.1) r.2
            else
              match py_iter v with
              | Raise x => Outcome st [Call AnswerCallback true] (Some x)
              | Ok entries =>
                  let r := send_all (tr e) task_id entries 1 in
                  Outcome st (Call AnswerCallback true :: r.1) r.2
              end
        end
  end.

Definition set_waiting (st : bot) (k : Z * Z) (task_id : Z) : bot :=
  Bot (materials st) (<[k := task_id]> (fsm st)) (data_file st).

Definition clear_state (st : bot) (k : Z * Z) : bot :=
  Bot (materials st) (delete k (fsm st)) (data_file st).

(** [cmd_add] *)
Definition cmd_add (cfg : config) (e : env) (st : bot) (m : message) : outcome :=
  if negb (is_admin cfg (from_user m)) then
    finish st (send (tr e) 0 (Reply msg_not_admin))
  else
    match text_of m with
    | None => Outcome st [] (Some AttributeError)
    | Some text =>
        match PyStr.split_maxsplit1 text with
        | _ :: arg :: _ =>
            if negb (PyStr.isdigit arg) then
              finish st (send (tr e) 0 (Reply msg_add_usage))
            else
              match PyStr.int arg with
              | None => Outcome st [] (Some ValueError)
              | Some task_id =>
                  if (task_id <? 1) || (19 <? task_id) then
                    finish st (send (tr e) 0 (Reply msg_add_range))
                  else
                    finish (set_waiting st (fsm_key m) task_id)
                           (send (tr e) 0 (Reply (msg_send_file task_id)))
              end
        | _ => finish st (send (tr e) 0 (Reply msg_add_usage))
        end
    end.

(** The [if]/[elif] chain of [handle_file_upload] that fills
    [file_type] and [file_id]. *)
Definition uploaded_file (m : message) : option string * option string :=
  match document_of m with
  | Some f => (Some "document", Some f)
  | None =>
      match video_of m with
      | Some f => (Some "video", Some f)
      | None =>
          match audio_of m with
          | Some f => (Some "audio", Some f)
          | None => (None, None)
          end
      end
  end.

(** [handle_file_upload]; [task_id] is what [data.get("task_id")] finds
    for the sender. *)
Definition handle_file_upload (e : env) (st : bot) (m : message) (task_id : Z)
  : outcome :=
  match uploaded_file m with
  | (Some file_type, Some file_id) =>
      if String.eqb file_id "" then
        finish st (send (tr e) 0 (Reply msg_no_type))
      else
        match append_material (materials st) task_id (media_entry file_type file_id) with
        | Raise x => Outcome st [] (Some x)
        | Ok materials' =>
            let '(f', err) := save_materials (write e) materials' (data_file st) in
            let st' := Bot materials' (fsm st) f' in
            match err with
            | Some x => Outcome st' [] (Some x)
            | None => finish st' (send (tr e) 0 (Reply (msg_added task_id)))
            end
        end
  | _ => finish st (send (tr e) 0 (Reply msg_no_type))
  end.

(** [cmd_done] *)
Definition cmd_done (e : env) (st : bot) (m : message) : outcome :=
  finish (clear_state st (fsm_key m)) (send (tr e) 0 (Reply msg_done)).

(** [cmd_checkme] *)
Definition cmd_checkme (cfg : config) (e : env) (st : bot) (m : message) : outcome :=
  if is_admin cfg (from_user m) then finish st (send (tr e) 0 (Reply msg_is_admin))
  else finish st (send (tr e) 0 (Reply msg_is_not_admin)).

(** The lines [cmd_list] builds, one per key in ascending order. *)
Fixpoint list_lines (d : pydict) (keys : list Z) : result (list string) :=
  match keys with
  | [] => Ok []
  | task_id :: keys' =>
      match dict_get d task_id with
      | None => Raise KeyError
      | Some v =>
          match py_len v with
          | Raise x => Raise x
          | Ok count =>
              match list_lines d keys' with
              | Raise x => Raise x
              | Ok ls => Ok (msg_list_line task_id count :: ls)
              end
          end
      end
  end.

Fixpoint join_lines (ls : list string) : string :=
  match ls with
  | [] => EmptyString
  | [l] => l
  | l :: ls' => l +:+ nl +:+ join_lines ls'
  end.

(** [cmd_list] *)
Definition cmd_list (cfg : config) (e : env) (st : bot) (m : message) : outcome :=
  if negb (is_admin cfg (from_user m)) then
    finish st (send (tr e) 0 (Reply msg_not_admin))
  else
    match materials st with
    | [] => finish st (send (tr e) 0 (Reply msg_list_empty))
    | _ =>
        match list_lines (materials st) (merge_sort Z.le (dict_keys (materials st))) with
        | Raise x => Outcome st [] (Some x)
        | Ok ls => finish st (send (tr e) 0 (Reply (join_lines (msg_list_head :: ls))))
        end
    end.

(** [handle_unknown] *)
Definition handle_unknown (e : env) (st : bot) : outcome :=
  finish st (send (tr e) 0 (Reply msg_unknown)).

(** ** The dispatcher *)

(** aiogram's [Command] filter: the command named by a text, if the text
    is a command for this bot.  The first word must start with "/"; what
    follows an "@" in it must be the bot's user name, letter case aside. *)
Definition command_of (cfg : config) (text : string) : option string :=
  match PyStr.split_maxsplit1 text with
  | String "/" rest :: _ =>
      match PyStr.partition "@" rest with
      | (cmd, Some (String c mn)) =>
          if String.eqb (PyStr.lower (String c mn)) (PyStr.lower (bot_username cfg))
          then Some cmd else None
      | (cmd, _) => Some cmd
      end
  | _ => None
  end.

Definition is_command (cfg : config) (name : string) (m : message) : bool :=
  match text_of m with
  | Some text =>
      match command_of cfg text with
      | Some cmd => String.eqb cmd name
      | None => false
      end
  | None => false
  end.

(** [F.content_type.in_({DOCUMENT, VIDEO, AUDIO})] *)
Definition is_media (m : message) : bool :=
  match body m with
  | DocumentMsg _ | VideoMsg _ | AudioMsg _ => true
  | _ => false
  end.

(** A message goes to the first handler, in order of registration, whose
    filters accept it. *)
Definition dispatch_message (cfg : config) (e : env) (st : bot) (m : message) : outcome :=
  if is_command cfg "start" m then cmd_start e st
  else if is_command cfg "add" m then cmd_add cfg e st m
  else
    match fsm st !! fsm_key m with
    | Some task_id =>
        if is_media m then handle_file_upload e st m task_id
        else if is_command cfg "done" m then cmd_done e st m
        else if is_command cfg "checkme" m then cmd_checkme cfg e st m
        else if is_command cfg "list" m then cmd_list cfg e st m
        else handle_unknown e st
    | None =>
        if is_command cfg "checkme" m then cmd_checkme cfg e st m
        else if is_command cfg "list" m then cmd_list cfg e st m
        else handle_unknown e st
    end.

(** A callback query reaches [process_task_selection] when its data starts
    with "task_"; no other callback handler is registered. *)
Definition dispatch_callback (e : env) (st : bot) (data : string) : outcome :=
  if PyStr.startswith "task_" data then process_task_selection e st data
  else Outcome st [] None.

Inductive update : Type :=
| MessageUpdate (m : message)
| CallbackUpdate (data : string).

Definition dispatch (cfg : config) (e : env) (st : bot) (u : update) : outcome :=
  match u with
  | MessageUpdate m => dispatch_message cfg e st m
  | CallbackUpdate data => dispatch_callback e st data
  end.

(** Updates are handled one after the other, each with its own environment. *)
Fixpoint run (cfg : config) (st : bot) (us : list (env * update)) : bot :=
  match us with
  | [] => st
  | (e, u) :: us' => run cfg (after (dispatch cfg e st u)) us'
  end.

(** Start of the process: [load_materials()] at import time, empty FSM storage. *)
Definition startup (f : file) : result bot :=
  match load_materials f with
  | Ok m => Ok (Bot m ∅ f)
  | Raise x => Raise x
  end.

(** ** Views of the state and of a trace *)

(** The sequence stored for a task, [[]] for a task that is absent. *)
Definition stored_list (m : pydict) (t : Z) : option (list pyval) :=
  match dict_get m t with
  | None => Some []
  | Some (PList l) => Some l
  | Some _ => None
  end.

(** The catalog entry an uploaded message stands for: the pair built by
    [handle_file_upload] when it finds a file identifier. *)
Definition entry_of (m : message) : option pyval :=
  match uploaded_file m with
  | (Some file_type, Some file_id) =>
      if String.eqb file_id "" then None else Some (media_entry file_type file_id)
  | _ => None
  end.

(** A message, with the environment it meets, as an update for [run]. *)
Definition as_update (em : env * message) : env * update := (em.1, MessageUpdate em.2).


(** The calls that deliver a file. *)
Definition is_media_call (a : action) : bool :=
  match a with
  | AnswerDocument _ | AnswerVideo _ | AnswerAudio _ => true
  | _ => false
  end.


(** The media sends of a trace that raised. *)
Definition failed_sends (evs : list event) : list action :=
  omap (λ ev, match ev with
              | Call a false => if is_media_call a then Some a else None
              | _ => None
              end) evs.



(** ** Configuration read at import *)

(** [list(map(int, fields))] *)
Fixpoint ints_of (fields : list string) : result (list Z) :=
  match fields with
  | [] => Ok []
  | f :: fields' =>
      match PyStr.int f with
      | None => Raise ValueError
      | Some n =>
          match ints_of fields' with
          | Ok ns => Ok (n :: ns)
          | Raise x => Raise x
          end
      end
  end.

(** Line 17: [ADMIN_IDS] from the environment variable of that name,
    [None] when it is not set.  An unset or empty variable gives no
    administrators; otherwise every comma-separated field goes to [int]. *)
Definition admin_ids_of_env (v : option string) : result (list Z) :=
  match v with
  | None => Ok []
  | Some s => if String.eqb s "" then Ok [] else ints_of (PyStr.split_on "," s)
  end.

(** The text of a comma-separated list, the form the variable is written in. *)
Fixpoint comma_join (fields : list string) : string :=
  match fields with
  | [] => EmptyString
  | [f] => f
  | f :: fields' => f +:+ String "," (comma_join fields')
  end.

(** ** Further views *)

(** [c not in s] *)
Fixpoint lacks (c : ascii) (s : string) : bool :=
  match s with
  | String a s' => negb (Ascii.eqb a c) && lacks c s'
  | EmptyString => true
  end.

(** The file identifiers of the [logging.error] records of a trace. *)
Definition logged (evs : list event) : list pyval :=
  omap (λ ev, match ev with LogError f => Some f | Call _ _ => None end) evs.

(** The file a call delivers. *)
Definition sent_file (a : action) : option pyval :=
  match a with
  | AnswerDocument f | AnswerVideo f | AnswerAudio f => Some f
  | _ => None
  end.

(** The value of the last item of a JSON object whose key reads as [n]. *)
Definition last_reading (items : list (string * pyval)) (n : Z) : option pyval :=
  last (omap (λ kv : string * pyval,
                if decide (PyStr.int kv.1 = Some n) then Some kv.2 else None) items).

(** Every upload in progress belongs to an administrator and is bound to
    a task from 1 to 19. *)
Definition sessions_ok (cfg : config) (st : bot) : Prop :=
  map_Forall (λ (k : Z * Z) (t : Z), k.2 ∈ ADMIN_IDS cfg ∧ 1 ≤ t ≤ 19) (fsm st).

(** The number [cmd_list] reports for a task that holds a list. *)
Definition files_count (d : pydict) (k : Z) : nat :=
  match dict_get d k with
  | Some (PList l) => length l
  | _ => 0%nat
  end.

(** Who sent an update, when it is a message. *)
Definition sender (u : update) : option Z :=
  match u with
  | MessageUpdate m => Some (from_user m)
  | CallbackUpdate _ => None
  end.

(** The file and the catalog agree: a restart would load the catalog. *)
Definition durable (st : bot) : Prop :=
  load_materials (data_file st) = Ok (materials st).

(** ** Scenarios used as concrete instances *)

Module Scenario.

Definition cfg : config := Config [100] "egebot".

(** Every call is delivered. *)
Definition all_delivered : transport := λ _ _, true.


Definition env_ok : env := Env all_delivered WriteOk.
Definition env_cut : env := Env all_delivered WriteInterrupted.

Definition admin_msg (b : content) : message := Message 100 100 b.

Definition catalog5 : pydict := [(5, PList [media_entry "document" "A"])].

(** Administrator 100 is filling task 5, which holds one document. *)
Definition filling5 : bot :=
  Bot catalog5 {[ (100, 100) := 5 ]} (Document (json_dump catalog5)).

(** Nobody is uploading. *)
Definition idle5 : bot := Bot catalog5 ∅ (Document (json_dump catalog5)).



End Scenario.

(** * Properties *)

(** ** The text primitives on examples *)

Example int_examples :
  PyStr.int "5" = Some 5 ∧ PyStr.int " 12 " = Some 12 ∧ PyStr.int "-3" = Some (-3)
  ∧ PyStr.int "1_9" = Some 19 ∧ PyStr.int "007" = Some 7
  ∧ PyStr.int "" = None ∧ PyStr.int "x" = None ∧ PyStr.int "1__9" = None
  ∧ PyStr.int "5_" = None ∧ PyStr.int "- 5" = None.
Proof. vm_compute. tauto. Qed.

Example str_examples :
  PyStr.str 0 = "0" ∧ PyStr.str 19 = "19" ∧ PyStr.str (-3) = "-3".
Proof. vm_compute. tauto. Qed.

Example split_examples :
  PyStr.split_maxsplit1 "/add 5" = ["/add"; "5"]
  ∧ PyStr.split_maxsplit1 "/add" = ["/add"]
  ∧ PyStr.split_maxsplit1 "  /add   5 6 " = ["/add"; "5 6 "]
  ∧ PyStr.split_maxsplit1 "   " = []
  ∧ PyStr.split_on "_" "task_5" = ["task"; "5"]
  ∧ PyStr.split_on "_" "task_" = ["task"; ""]
  ∧ PyStr.split_on "_" "task_5_7" = ["task"; "5"; "7"].
Proof. vm_compute. tauto. Qed.

(** ** Decimal keys: [int (str n) = n] *)

Section Decimal.
Import PyStr.

Lemma pretty_N_char_digit (d : N) :
  (d < 10)%N → is_digit (pretty_N_char d) = true ∧ digit_val (pretty_N_char d) = d.
Proof.
  intros Hd.
  assert (d ∈ [0; 1; 2; 3; 4; 5; 6; 7; 8; 9]%N) as Hin.
  { apply list_elem_of_In. simpl. lia. }
  repeat (apply elem_of_cons in Hin as [-> | Hin]; [by vm_compute |]).
  by apply elem_of_nil in Hin.
Qed.

Lemma is_digit_not_space (c : ascii) : is_digit c = true → is_space c = false.
Proof.
  unfold is_digit, is_space. generalize (N_of_ascii c). intros n H.
  apply andb_true_iff in H as [H1 H2].
  apply N.leb_le in H1, H2.
  apply orb_false_iff. split; apply andb_false_iff.
  - right. apply N.leb_gt. lia.
  - right. apply N.leb_gt. lia.
Qed.

Lemma str_app_cons (a : ascii) (q r : string) :
  String a q +:+ r = String a (q +:+ r).
Proof. reflexivity. Qed.

Lemma str_app_nil_l (r : string) : "" +:+ r = r.
Proof. reflexivity. Qed.

Lemma str_app_assoc (q r t : string) : (q +:+ r) +:+ t = q +:+ (r +:+ t).
Proof.
  induction q as [|a q IHq]; [done |]. by rewrite !str_app_cons, IHq.
Qed.

Lemma str_app_nil_r (q : string) : q +:+ "" = q.
Proof.
  induction q as [|a q IHq]; [done |]. by rewrite str_app_cons, IHq.
Qed.

Lemma all_digits_app (q r : string) :
  all_digits q = true → all_digits r = true → all_digits (q +:+ r) = true.
Proof.
  intros Hq Hr. induction q as [|a q IHq]; [done |].
  rewrite str_app_cons. simpl in *.
  apply andb_true_iff in Hq as [-> Hq]. simpl. auto.
Qed.

(** The digits [pretty_N_go] puts in front of [s], and their value. *)
Lemma pretty_N_go_read (x : N) :
  (0 < x)%N →
  ∃ (c : ascii) (p : string) (k : N),
    is_digit c = true ∧ all_digits p = true
    ∧ (∀ s, pretty_N_go x s = String c (p +:+ s))
    ∧ (∀ s b acc, read_digits (String c (p +:+ s)) b acc
                  = read_digits s true (acc * 10 ^ k + x)%N).
Proof.
  induction (N.lt_wf_0 x) as [x _ IH]. intros Hx.
  pose proof (N.div_mod' x 10) as Hdm.
  assert (x `mod` 10 < 10)%N as Hlt by (apply N.mod_lt; lia).
  destruct (pretty_N_char_digit _ Hlt) as [Hdig Hval].
  destruct (decide (x `div` 10 = 0)%N) as [Hz | Hnz].
  - exists (pretty_N_char (x `mod` 10)), EmptyString, 1%N.
    repeat split; [done | |].
    + intros s. rewrite pretty_N_go_step by done. by rewrite Hz, pretty_N_go_0.
    + intros s b acc. simpl. rewrite Hdig, Hval. f_equal. lia.
  - destruct (IH (x `div` 10)%N) as (c & p & k & Hc & Hp & Hgo & Hrd).
    { apply N.div_lt; lia. }
    { lia. }
    exists c, (p +:+ String (pretty_N_char (x `mod` 10)) EmptyString), (k + 1)%N.
    repeat split; [done | | |].
    + apply all_digits_app; [done |]. simpl. by rewrite Hdig.
    + intros s. rewrite pretty_N_go_step by done. rewrite Hgo.
      by rewrite str_app_assoc.
    + intros s b acc.
      rewrite str_app_assoc, Hrd, str_app_cons, str_app_nil_l. simpl.
      rewrite Hdig, Hval. f_equal.
      rewrite N.pow_add_r. lia.
Qed.

Lemma all_digits_rstrip (c : ascii) (p : string) :
  is_space c = false → all_digits p = true → rstrip (String c p) = String c p.
Proof.
  revert c. induction p as [|a p IHp]; intros c Hc Hp; simpl in *.
  - by rewrite Hc.
  - apply andb_true_iff in Hp as [Ha Hp].
    specialize (IHp a (is_digit_not_space _ Ha) Hp). simpl in IHp.
    by rewrite IHp.
Qed.

Lemma int_pretty_pos (x : positive) :
  ∃ (c : ascii) (p : string),
    pretty (Npos x) = String c p ∧ is_digit c = true ∧ all_digits p = true
    ∧ read_digits (String c p) false 0%N = Some (Npos x).
Proof.
  destruct (pretty_N_go_read (Npos x)) as (c & p & k & Hc & Hp & Hgo & Hrd); [lia |].
  pose proof (str_app_nil_r p) as Hnil.
  exists c, p. repeat split; [| done | done |].
  - unfold pretty, pretty_N. rewrite decide_False by done. by rewrite Hgo, Hnil.
  - specialize (Hrd "" false 0%N). rewrite Hnil in Hrd. rewrite Hrd. simpl. f_equal.
Qed.

(** Reading back the decimal form of an integer gives the integer. *)
Lemma int_str (n : Z) : int (str n) = Some n.
Proof.
  unfold str, pretty, pretty_Z. destruct n as [|x|x].
  - by vm_compute.
  - unfold pretty, pretty_positive.
    destruct (int_pretty_pos x) as (c & p & -> & Hc & Hp & Hrd).
    unfold int, strip. simpl lstrip. rewrite (is_digit_not_space _ Hc).
    rewrite all_digits_rstrip by auto using is_digit_not_space.
    assert (Ascii.eqb c "-" = false ∧ Ascii.eqb c "+" = false) as [-> ->].
    { split; apply Ascii.eqb_neq; intros ->; by vm_compute in Hc. }
    by rewrite Hrd.
  - unfold pretty, pretty_positive.
    destruct (int_pretty_pos x) as (c & p & -> & Hc & Hp & Hrd).
    unfold int, strip.
    change ("-" +:+ String c p) with (String "-" (String c p)).
    simpl lstrip.
    rewrite (all_digits_rstrip "-" (String c p)); [| done | by simpl; rewrite Hc].
    cbv beta iota. rewrite Ascii.eqb_refl. by rewrite Hrd.
Qed.

End Decimal.

(** ** The dictionary *)

Section Dict.
Implicit Types (d : pydict) (k : Z) (v : pyval).

Lemma dict_get_set_eq d k v : dict_get (dict_set d k v) k = Some v.
Proof.
  induction d as [|[k' v'] d IH]; simpl.
  - by rewrite decide_True.
  - destruct (decide (k' = k)) as [->|Hne]; simpl.
    + by rewrite decide_True.
    + by rewrite decide_False.
Qed.

Lemma dict_get_set_ne d k k' v :
  k ≠ k' → dict_get (dict_set d k v) k' = dict_get d k'.
Proof.
  intros Hne. induction d as [|[k0 v0] d IH]; simpl.
  - by rewrite decide_False.
  - destruct (decide (k0 = k)) as [->|Hne0]; simpl.
    + by rewrite !decide_False.
    + destruct (decide (k0 = k')); [done | apply IH].
Qed.

Lemma dict_keys_cons d k v : dict_keys ((k, v) :: d) = k :: dict_keys d.
Proof. reflexivity. Qed.

Lemma dict_keys_app d1 d2 : dict_keys (d1 ++ d2) = dict_keys d1 ++ dict_keys d2.
Proof. apply fmap_app. Qed.

(** Assigning to a new key puts the item at the end. *)
Lemma dict_set_fresh d k v : k ∉ dict_keys d → dict_set d k v = d ++ [(k, v)].
Proof.
  induction d as [|[k' v'] d IH]; [done |].
  rewrite dict_keys_cons, not_elem_of_cons. intros [Hne Hnin]. simpl.
  rewrite decide_False by done. by rewrite IH.
Qed.

(** Assigning to a present key keeps the sequence of keys. *)
Lemma dict_keys_set_present d k v :
  k ∈ dict_keys d → dict_keys (dict_set d k v) = dict_keys d.
Proof.
  induction d as [|[k' v'] d IH].
  - by intros ?%elem_of_nil.
  - rewrite dict_keys_cons. intros Hin. simpl.
    destruct (decide (k' = k)) as [->|Hne]; [done |].
    apply elem_of_cons in Hin as [->|Hin]; [done |].
    by rewrite !dict_keys_cons, IH.
Qed.

Lemma dict_set_NoDup d k v :
  NoDup (dict_keys d) → NoDup (dict_keys (dict_set d k v)).
Proof.
  intros Hnd. destruct (decide (k ∈ dict_keys d)) as [Hin|Hnin].
  - by rewrite dict_keys_set_present.
  - rewrite dict_set_fresh, dict_keys_app by done.
    apply NoDup_app. split; [done |].
    split; [| apply NoDup_singleton].
    intros x Hx ->%list_elem_of_singleton. done.
Qed.

End Dict.

(** ** Appending to the catalog *)

Section Append.
Implicit Types (m : pydict) (t : Z) (entry : pyval).

Lemma append_material_Ok m t entry old :
  stored_list m t = Some old →
  ∃ m', append_material m t entry = Ok m'
        ∧ dict_get m' t = Some (PList (old ++ [entry]))
        ∧ (∀ t', t' ≠ t → dict_get m' t' = dict_get m t')
        ∧ (NoDup (dict_keys m) → NoDup (dict_keys m')).
Proof.
  unfold stored_list, append_material, dict_mem. intros Hold.
  destruct (dict_get m t) as [v|] eqn:Hget.
  - destruct v; try done. simplify_eq. rewrite Hget.
    eexists. split; [done |]. split; [apply dict_get_set_eq |].
    split; [| apply dict_set_NoDup].
    intros t' Hne. by apply dict_get_set_ne.
  - simplify_eq. rewrite dict_get_set_eq.
    eexists. split; [done |]. split; [apply dict_get_set_eq |].
    split.
    + intros t' Hne. by rewrite !dict_get_set_ne.
    + intros Hnd. by do 2 apply dict_set_NoDup.
Qed.

(** A failing [append] can only be the [AttributeError] of a stored
    value that is not a list. *)
Lemma append_material_Raise m t entry x :
  append_material m t entry = Raise x →
  x = AttributeError ∧ stored_list m t = None.
Proof.
  unfold stored_list, append_material, dict_mem.
  destruct (dict_get m t) as [v|] eqn:Hget.
  - rewrite Hget. destruct v; naive_solver.
  - rewrite dict_get_set_eq. done.
Qed.

Lemma append_material_frame m m' t t' entry :
  append_material m t entry = Ok m' → t' ≠ t → dict_get m' t' = dict_get m t'.
Proof.
  intros Happ Hne.
  destruct (stored_list m t) as [old|] eqn:Hold.
  - destruct (append_material_Ok m t entry old Hold) as (m2 & H2 & _ & Hfr & _).
    rewrite Happ in H2. simplify_eq. by apply Hfr.
  - unfold stored_list, append_material, dict_mem in *.
    destruct (dict_get m t) as [v|] eqn:Hget; [| done].
    rewrite Hget in Happ. destruct v; done.
Qed.

End Append.

(** ** Saving and loading *)

Section Persistence.

Lemma int_keys_dump (d acc : pydict) :
  NoDup (dict_keys (acc ++ d)) →
  int_keys ((λ '(k, v), (PyStr.str k, v)) <$> d) acc = Ok (acc ++ d).
Proof.
  revert acc. induction d as [|[k v] d IH]; intros acc Hnd; simpl.
  - by rewrite app_nil_r.
  - rewrite int_str.
    assert (k ∉ dict_keys acc) as Hfresh.
    { rewrite dict_keys_app, dict_keys_cons in Hnd.
      apply NoDup_app in Hnd as (_ & Hdisj & _).
      intros Hin. apply (Hdisj k Hin). apply elem_of_cons. by left. }
    rewrite dict_set_fresh by done.
    rewrite IH; rewrite <- app_assoc; done.
Qed.

(** What [json.dump] wrote is read back by [load_materials] as the same
    dictionary. *)
Lemma load_dump (m : pydict) :
  NoDup (dict_keys m) → load_materials (Document (json_dump m)) = Ok m.
Proof.
  intros Hnd. unfold load_materials, json_dump. simpl.
  by rewrite (int_keys_dump m []).
Qed.

Lemma int_keys_NoDup items acc m :
  NoDup (dict_keys acc) → int_keys items acc = Ok m → NoDup (dict_keys m).
Proof.
  revert acc. induction items as [|[k v] items IH]; intros acc Hnd; simpl.
  - by intros [= <-].
  - destruct (PyStr.int k) as [n|]; [| done].
    apply IH. by apply dict_set_NoDup.
Qed.

(** The keys of a loaded catalog are distinct. *)
Lemma load_materials_NoDup f m :
  load_materials f = Ok m → NoDup (dict_keys m).
Proof.
  destruct f as [| |raw]; simpl.
  - intros [= <-]. apply NoDup_nil_2.
  - done.
  - destruct (py_items raw) as [items|]; [| done].
    apply int_keys_NoDup. apply NoDup_nil_2.
Qed.

End Persistence.

(** ** Routing *)

Section Routing.
Variables (cfg : config) (e : env) (st : bot).

Lemma entry_of_is_media m r : entry_of m = Some r → is_media m = true.
Proof.
  unfold entry_of, uploaded_file, document_of, video_of, audio_of, is_media.
  by destruct (body m).
Qed.

Lemma is_media_no_command m name : is_media m = true → is_command cfg name m = false.
Proof. unfold is_media, is_command, text_of. by destruct (body m). Qed.

(** A media message of a sender who is waiting for a file is handled by
    [handle_file_upload]. *)
Lemma dispatch_upload m task_id :
  fsm st !! fsm_key m = Some task_id → is_media m = true →
  dispatch_message cfg e st m = handle_file_upload e st m task_id.
Proof.
  intros Hfsm Hmedia. unfold dispatch_message.
  rewrite !is_media_no_command by done. by rewrite Hfsm, Hmedia.
Qed.


(** A text names at most one command. *)
Lemma is_command_other m name name' :
  is_command cfg name m = true → name ≠ name' → is_command cfg name' m = false.
Proof.
  unfold is_command. destruct (text_of m) as [text|]; [| done].
  destruct (command_of cfg text) as [cmd|]; [| done].
  intros ->%String.eqb_eq Hne. by apply String.eqb_neq.
Qed.

Lemma is_command_not_media m name : is_command cfg name m = true → is_media m = false.
Proof. unfold is_media, is_command, text_of. by destruct (body m). Qed.

(** [/done] reaches [cmd_done] only from the state [waiting_for_file]. *)
Lemma dispatch_done_waiting m task_id :
  is_command cfg "done" m = true → fsm st !! fsm_key m = Some task_id →
  dispatch_message cfg e st m = cmd_done e st m.
Proof.
  intros Hcmd Hfsm. unfold dispatch_message.
  rewrite (is_command_other m "done" "start"), (is_command_other m "done" "add") by done.
  by rewrite Hfsm, (is_command_not_media m "done"), Hcmd.
Qed.

Lemma dispatch_done_idle m :
  is_command cfg "done" m = true → fsm st !! fsm_key m = None →
  dispatch_message cfg e st m = handle_unknown e st.
Proof.
  intros Hcmd Hfsm. unfold dispatch_message.
  rewrite (is_command_other m "done" "start"), (is_command_other m "done" "add") by done.
  rewrite Hfsm.
  by rewrite (is_command_other m "done" "checkme"), (is_command_other m "done" "list").
Qed.

End Routing.

(** ** Uploads *)

Section Upload.
Variables (e : env).
Implicit Types (st : bot) (m : message) (t : Z).

(** An accepted upload: the catalog grows by the entry, the FSM storage
    is untouched, and the file is whatever [save_materials] leaves. *)
Lemma handle_file_upload_accepts st m t r old :
  entry_of m = Some r → stored_list (materials st) t = Some old →
  ∃ cat',
    append_material (materials st) t r = Ok cat'
    ∧ after (handle_file_upload e st m t)
      = Bot cat' (fsm st) (save_materials (write e) cat' (data_file st)).1
    ∧ raised (handle_file_upload e st m t)
      = match (save_materials (write e) cat' (data_file st)).2 with
        | Some x => Some x
        | None => if tr e 0%nat (Reply (msg_added t)) then None else Some TelegramError
        end
    ∧ trace (handle_file_upload e st m t)
      = match (save_materials (write e) cat' (data_file st)).2 with
        | Some x => []
        | None => [Call (Reply (msg_added t)) (tr e 0%nat (Reply (msg_added t)))]
        end.
Proof.
  intros Hentry Hold.
  destruct (append_material_Ok (materials st) t r old Hold) as (cat' & Happ & _).
  exists cat'. split; [done |].
  unfold handle_file_upload. unfold entry_of in Hentry.
  destruct (uploaded_file m) as [[ft|] [fid|]]; try done.
  destruct (String.eqb fid ""); [done |]. simplify_eq. rewrite Happ.
  destruct (save_materials (write e) cat' (data_file st)) as [f' [x|]]; done.
Qed.

(** Whatever happens, [handle_file_upload] keeps the FSM storage. *)
Lemma handle_file_upload_fsm st m t :
  fsm (after (handle_file_upload e st m t)) = fsm st.
Proof.
  unfold handle_file_upload.
  destruct (uploaded_file m) as [[ft|] [fid|]]; try done.
  destruct (String.eqb fid ""); [done |].
  destruct (append_material _ _ _); [| done].
  destruct (save_materials _ _ _) as [f' [x|]]; done.
Qed.

End Upload.

(** ** Invariants of a run *)

Section Invariants.
Variables (cfg : config).

Lemma append_material_NoDup (c c' : pydict) (t : Z) (entry : pyval) :
  append_material c t entry = Ok c' → NoDup (dict_keys c) → NoDup (dict_keys c').
Proof.
  unfold append_material. intros Happ Hnd.
  repeat case_match; simplify_eq; auto using dict_set_NoDup.
Qed.

(** The only handler that changes the catalog is [handle_file_upload], and
    it changes it by one [append_material]. *)
Lemma dispatch_materials (e : env) (st : bot) (u : update) :
  materials (after (dispatch cfg e st u)) = materials st
  ∨ ∃ t entry, append_material (materials st) t entry
               = Ok (materials (after (dispatch cfg e st u))).
Proof.
  destruct u as [m|data]; simpl.
  - unfold dispatch_message, cmd_start, cmd_add, handle_file_upload, cmd_done,
      cmd_checkme, cmd_list, handle_unknown, finish.
    repeat case_match; simpl; eauto.
  - unfold dispatch_callback, process_task_selection.
    repeat case_match; simpl; eauto.
Qed.

(** The keys of the catalog stay distinct, as those of a [dict] are. *)
Lemma run_NoDup (us : list (env * update)) (st : bot) :
  NoDup (dict_keys (materials st)) → NoDup (dict_keys (materials (run cfg st us))).
Proof.
  revert st. induction us as [|[e u] us IH]; intros st Hnd; [done |].
  simpl. apply IH.
  destruct (dispatch_materials e st u) as [-> | (t & entry & Happ)]; [done |].
  by eapply append_material_NoDup.
Qed.

(** From the start of the process on, that is. *)
Lemma started_NoDup (f : file) (st : bot) (us : list (env * update)) :
  startup f = Ok st → NoDup (dict_keys (materials (run cfg st us))).
Proof.
  unfold startup. destruct (load_materials f) as [c|] eqn:Hload; [| done].
  intros [= <-]. apply run_NoDup. simpl. by eapply load_materials_NoDup.
Qed.

End Invariants.

(** ** The claims *)

(** C9. Appending a reference to task [t] leaves the sequence stored for
    every other task [t'] unchanged, whether the append is accepted,
    rejected or its save fails. *)
Theorem C9_append_frame (e : env) (st : bot) (m : message) (t t' : Z) :
  t' ≠ t →
  dict_get (materials (after (handle_file_upload e st m t))) t'
  = dict_get (materials st) t'.
Proof.
  intros Hne. unfold handle_file_upload.
  destruct (uploaded_file m) as [[ft|] [fid|]]; try done.
  destruct (String.eqb fid ""); [done |].
  destruct (append_material _ _ _) as [c'|] eqn:Happ; [| done].
  destruct (save_materials _ _ _) as [f' [x|]]; simpl;
    by eapply append_material_frame.
Qed.

Lemma C9_append_frame_witness :
  dict_get (materials (after (handle_file_upload Scenario.env_ok Scenario.filling5
                                (Scenario.admin_msg (VideoMsg "B")) 7))) 5
  = Some (PList [media_entry "document" "A"]).
Proof.
  rewrite (C9_append_frame Scenario.env_ok Scenario.filling5
             (Scenario.admin_msg (VideoMsg "B")) 7 5); [reflexivity | lia].
Defined.

(** C4. After any sequence of uploads into task [t] by a sender who is
    filling [t], the task holds what it held before followed by exactly the
    uploaded references in the order of the calls, duplicates included;
    for a task that held nothing this is the uploaded sequence itself. *)
Theorem C4_append_order (cfg : config) (ups : list (env * message)) (refs : list pyval) :
  ∀ (st : bot) (k : Z * Z) (t : Z) (old : list pyval),
    fsm st !! k = Some t →
    stored_list (materials st) t = Some old →
    Forall2 (λ em r, fsm_key em.2 = k ∧ entry_of em.2 = Some r) ups refs →
    let st' := run cfg st (as_update <$> ups) in
    stored_list (materials st') t = Some (old ++ refs)
    ∧ (refs ≠ [] → dict_get (materials st') t = Some (PList (old ++ refs))).
Proof.
  revert refs. induction ups as [|[e m] ups IH]; intros refs st k t old Hfsm Hold Hall.
  - apply Forall2_nil_inv_l in Hall as ->. simpl. rewrite app_nil_r. done.
  - apply Forall2_cons_inv_l in Hall as (r & refs' & [Hk Hr] & Hall & ->).
    simpl in Hk, Hr. cbn [fmap list_fmap run as_update fst snd dispatch].
    rewrite (dispatch_upload cfg e st m t) by (rewrite ?Hk; eauto using entry_of_is_media).
    destruct (append_material_Ok (materials st) t r old Hold) as (c1 & Happ & Hget & _).
    destruct (handle_file_upload_accepts e st m t r old Hr Hold) as (c2 & Happ2 & Hafter & _).
    rewrite Happ in Happ2. simplify_eq.
    set (st1 := after (handle_file_upload e st m t)) in *.
    assert (stored_list (materials st1) t = Some (old ++ [r])) as Hold1.
    { unfold stored_list. rewrite Hafter. simpl. by rewrite Hget. }
    assert (fsm st1 !! fsm_key m = Some t) as Hfsm1.
    { rewrite Hafter. done. }
    destruct (IH refs' st1 (fsm_key m) t (old ++ [r]) Hfsm1 Hold1 Hall) as [H1 H2].
    rewrite <- app_assoc in H1, H2. simpl in H1, H2. split; [done |].
    intros _. destruct refs' as [|r' refs'].
    + apply Forall2_nil_inv_r in Hall as ->. simpl. rewrite Hafter. done.
    + by apply H2.
Qed.

Lemma C4_append_order_witness :
  let st' := run Scenario.cfg (Bot [] {[ (100, 100) := 5 ]} Missing)
               (as_update <$> [(Scenario.env_ok, Scenario.admin_msg (DocumentMsg "A"));
                               (Scenario.env_cut, Scenario.admin_msg (AudioMsg "B"));
                               (Scenario.env_ok, Scenario.admin_msg (DocumentMsg "A"))]) in
  stored_list (materials st') 5
  = Some [media_entry "document" "A"; media_entry "audio" "B"; media_entry "document" "A"].
Proof.
  refine (proj1 (C4_append_order Scenario.cfg _ _ _ (100, 100) 5 [] _ _ _)).
  - reflexivity.
  - reflexivity.
  - repeat constructor.
Defined.

(** C5. After an upload whose save completes, restarting the process
    ([load_materials] on the file just written, empty FSM storage) yields
    the very catalog that was in memory: the same tasks, in the same
    order, each with the same sequence of entries. *)
Theorem C5_restart_roundtrip (cfg : config) (e : env) (st : bot) (m : message)
    (t : Z) (r : pyval) (old : list pyval) :
  NoDup (dict_keys (materials st)) →
  fsm st !! fsm_key m = Some t →
  entry_of m = Some r →
  stored_list (materials st) t = Some old →
  write e = WriteOk →
  let st' := after (dispatch_message cfg e st m) in
  startup (data_file st') = Ok (Bot (materials st') ∅ (data_file st'))
  ∧ dict_get (materials st') t = Some (PList (old ++ [r])).
Proof.
  intros Hnd Hfsm Hr Hold Hw st'. subst st'.
  rewrite (dispatch_upload cfg e st m t) by eauto using entry_of_is_media.
  destruct (append_material_Ok (materials st) t r old Hold) as (c1 & Happ & Hget & _ & Hnd1).
  destruct (handle_file_upload_accepts e st m t r old Hr Hold) as (c2 & Happ2 & Hafter & _).
  rewrite Happ in Happ2. simplify_eq. rewrite Hafter, Hw. simpl.
  split; [| done]. unfold startup. by rewrite load_dump by auto.
Qed.

Lemma C5_restart_roundtrip_witness :
  let st' := after (dispatch_message Scenario.cfg Scenario.env_ok Scenario.filling5
                      (Scenario.admin_msg (VideoMsg "B"))) in
  startup (data_file st') = Ok (Bot (materials st') ∅ (data_file st'))
  ∧ dict_get (materials st') 5
    = Some (PList ([media_entry "document" "A"] ++ [media_entry "video" "B"])).
Proof.
  apply (C5_restart_roundtrip Scenario.cfg Scenario.env_ok Scenario.filling5
           (Scenario.admin_msg (VideoMsg "B")) 5).
  - apply NoDup_singleton.
  - reflexivity.
  - reflexivity.
  - reflexivity.
  - reflexivity.
Defined.

(** C1 as stated does not hold: when [json.dump] is interrupted the file,
    already truncated by [open(DATA_FILE, "w")], holds neither the updated
    catalog nor what it held before, and the catalog in memory has been
    extended all the same, so it differs from anything a restart could load. *)
Lemma C1_counterexample :
  let out := handle_file_upload Scenario.env_cut Scenario.filling5
               (Scenario.admin_msg (VideoMsg "B")) 5 in
  data_file (after out) ≠ Document (json_dump (materials (after out)))
  ∧ data_file (after out) ≠ data_file Scenario.filling5
  ∧ materials (after out) ≠ materials Scenario.filling5
  ∧ load_materials (data_file (after out)) = Raise JSONDecodeError.
Proof. vm_compute. repeat split; discriminate. Qed.

(** C1, amended. For every accepted upload the catalog in memory is
    extended first. If the save completes, the file holds the whole updated
    catalog and the only call is the reply "file added". If the save
    cannot complete, the handler ends with the exception and issues no call
    at all (the sender is not told "file added"); the file is what it was
    when it could not be opened, and is left truncated when the dump was
    interrupted; the catalog in memory keeps the new reference. *)
Theorem C1_append_persistence (e : env) (st : bot) (m : message) (t : Z)
    (r : pyval) (old : list pyval) :
  entry_of m = Some r →
  stored_list (materials st) t = Some old →
  let out := handle_file_upload e st m t in
  dict_get (materials (after out)) t = Some (PList (old ++ [r]))
  ∧ match write e with
    | WriteOk =>
        data_file (after out) = Document (json_dump (materials (after out)))
        ∧ trace out = [Call (Reply (msg_added t)) (tr e 0%nat (Reply (msg_added t)))]
    | OpenRefused =>
        data_file (after out) = data_file st
        ∧ trace out = [] ∧ raised out = Some OSError
    | WriteInterrupted =>
        data_file (after out) = Unparsable
        ∧ trace out = [] ∧ raised out = Some OSError
    end.
Proof.
  intros Hr Hold out. subst out.
  destruct (append_material_Ok (materials st) t r old Hold) as (c1 & Happ & Hget & _).
  destruct (handle_file_upload_accepts e st m t r old Hr Hold)
    as (c2 & Happ2 & Hafter & Hraised & Htrace).
  rewrite Happ in Happ2. simplify_eq. rewrite Hafter, Hraised, Htrace.
  split; [done |]. by destruct (write e).
Qed.

Lemma C1_append_persistence_witness :
  let out := handle_file_upload Scenario.env_cut Scenario.filling5
               (Scenario.admin_msg (VideoMsg "B")) 5 in
  dict_get (materials (after out)) 5
  = Some (PList ([media_entry "document" "A"] ++ [media_entry "video" "B"]))
  ∧ data_file (after out) = Unparsable ∧ trace out = [] ∧ raised out = Some OSError.
Proof.
  apply (C1_append_persistence Scenario.env_cut Scenario.filling5
           (Scenario.admin_msg (VideoMsg "B")) 5); reflexivity.
Defined.

(** A corrupt file is not taken for an empty catalog: [json.load] raises
    and nothing catches it. *)
Lemma load_materials_unparsable : startup Unparsable = Raise JSONDecodeError.
Proof. reflexivity. Qed.

(** A key that is not an integer literal ends the load with [ValueError]. *)
Lemma load_materials_bad_key :
  load_materials (Document (PDict [("first", PList [])])) = Raise ValueError.
Proof. reflexivity. Qed.




(** ** Delivery *)

Section Delivery.
Variables (t : transport) (task_id : Z).


Lemma media_action_unknown (kind : string) (fid : pyval) :
  kind ∉ ["document"; "video"; "audio"] → media_action (PStr kind) fid = None.
Proof.
  intros Hk. unfold media_action.
  repeat (case_match; [exfalso; apply Hk;
    match goal with H : String.eqb _ _ = true |- _ => apply String.eqb_eq in H as -> end;
    set_solver |]).
  done.
Qed.

(** An entry that selects no branch leaves no mark on the loop. *)
Lemma send_all_skip (pre post : list pyval) (ft fid : pyval) (n : nat) :
  media_action ft fid = None →
  send_all t task_id (pre ++ PList [ft; fid] :: post) n
  = send_all t task_id (pre ++ post) n.
Proof.
  intros Hnone. revert n. induction pre as [|entry pre IH]; intros n; simpl.
  - by rewrite Hnone.
  - destruct (unpack2 entry) as [[ft' fid']|]; [| done].
    destruct (media_action ft' fid'); [| apply IH].
    destruct (t n a); [by rewrite IH |].
    destruct (t (S n) _); [by rewrite IH | done].
Qed.


End Delivery.




(** C10. A stored entry whose kind is none of "document", "video" and
    "audio" leaves no mark on a request for its task: the trace and the
    result are those of the entries around it, with no send, no warning,
    no log record and no exception for the entry itself. *)
Theorem C10_unknown_kind_skipped (e : env) (st : bot) (data : string) (task_id : Z)
    (pre post : list pyval) (kind : string) (file_id : pyval) :
  kind ∉ ["document"; "video"; "audio"] →
  task_of_data data = Ok task_id →
  dict_get (materials st) task_id = Some (PList (pre ++ PList [PStr kind; file_id] :: post)) →
  tr e 0%nat AnswerCallback = true →
  let out := process_task_selection e st data in
  let rest := send_all (tr e) task_id (pre ++ post) 1 in
  trace out = Call AnswerCallback true :: rest.1
  ∧ raised out = rest.2
  ∧ after out = st.
Proof.
  intros Hkind Hdata Hget Hcb out rest. subst out rest.
  unfold process_task_selection. rewrite Hdata, Hcb, Hget.
  assert (truthy (PList (pre ++ PList [PStr kind; file_id] :: post)) = true) as ->.
  { by destruct pre. }
  cbn [negb py_iter].
  rewrite (send_all_skip (tr e) task_id pre post (PStr kind) file_id)
    by by apply media_action_unknown.
  done.
Qed.

Lemma C10_unknown_kind_skipped_witness :
  let st := Bot [(3, PList [media_entry "document" "a"; media_entry "image" "b";
                            media_entry "video" "c"])] ∅ Missing in
  let out := process_task_selection Scenario.env_ok st "task_3" in
  trace out = [Call AnswerCallback true;
               Call (AnswerDocument (PStr "a")) true; Call (AnswerVideo (PStr "c")) true]
  ∧ raised out = None
  ∧ after out = st.
Proof.
  intros st.
  apply (C10_unknown_kind_skipped Scenario.env_ok st "task_3" 3
           [media_entry "document" "a"] [media_entry "video" "c"] "image" (PStr "b")).
  - intros Hin. repeat (apply elem_of_cons in Hin as [Hin | Hin]; [discriminate |]).
    by apply elem_of_nil in Hin.
  - reflexivity.
  - reflexivity.
  - reflexivity.
Defined.

(** ** Sessions *)



(** C7 as stated does not hold: [/done] from an administrator with no
    upload in progress is not acknowledged; it gets the answer for
    unrecognised input. *)
Lemma C7_counterexample :
  let out := dispatch_message Scenario.cfg Scenario.env_ok Scenario.idle5
               (Scenario.admin_msg (Text "/done")) in
  is_admin Scenario.cfg 100 = true
  ∧ fsm Scenario.idle5 !! (100, 100) = None
  ∧ trace out = [Call (Reply msg_unknown) true]
  ∧ trace out ≠ [Call (Reply msg_done) true].
Proof. vm_compute. repeat split. discriminate. Qed.

(** C7, amended. [/done] always leaves the sender without an upload in
    progress and never touches the catalog. It is acknowledged with the
    completion text when an upload was in progress, for any sender; with no
    upload in progress it is answered as unrecognised input. *)
Theorem C7_done (cfg : config) (e : env) (st : bot) (m : message) :
  is_command cfg "done" m = true →
  let out := dispatch_message cfg e st m in
  fsm (after out) !! fsm_key m = None
  ∧ materials (after out) = materials st
  ∧ data_file (after out) = data_file st
  ∧ trace out
    = match fsm st !! fsm_key m with
      | Some _ => [Call (Reply msg_done) (tr e 0%nat (Reply msg_done))]
      | None => [Call (Reply msg_unknown) (tr e 0%nat (Reply msg_unknown))]
      end.
Proof.
  intros Hcmd out. subst out.
  destruct (fsm st !! fsm_key m) as [task_id|] eqn:Hfsm.
  - rewrite (dispatch_done_waiting cfg e st m task_id) by done.
    simpl. by rewrite lookup_delete_eq.
  - rewrite (dispatch_done_idle cfg e st m) by done. done.
Qed.

Lemma C7_done_witness :
  let out := dispatch_message Scenario.cfg Scenario.env_ok Scenario.filling5
               (Scenario.admin_msg (Text "/done")) in
  fsm (after out) !! (100, 100) = None
  ∧ materials (after out) = Scenario.catalog5
  ∧ data_file (after out) = Document (json_dump Scenario.catalog5)
  ∧ trace out = [Call (Reply msg_done) true].
Proof.
  apply (C7_done Scenario.cfg Scenario.env_ok Scenario.filling5
           (Scenario.admin_msg (Text "/done"))). reflexivity.
Defined.

Section Begin.
Variables (cfg : config) (e : env) (st : bot).

Lemma dispatch_add m :
  is_command cfg "add" m = true → dispatch_message cfg e st m = cmd_add cfg e st m.
Proof.
  intros Hcmd. unfold dispatch_message.
  by rewrite (is_command_other cfg m "add" "start"), Hcmd.
Qed.


End Begin.



(** * Further properties of the code *)

(** ** Decimal numbers in callback data and in the environment *)

Section DecimalShape.
Import PyStr.

Lemma all_digits_lacks (c : ascii) (s : string) :
  is_digit c = false → all_digits s = true → lacks c s = true.
Proof.
  intros Hc. induction s as [|a s IH]; simpl; [done |].
  intros [Ha Hs]%andb_true_iff. rewrite IH by done.
  destruct (Ascii.eqb_spec a c) as [->|]; [congruence | done].
Qed.

(** [str n] is a run of digits, after a minus sign for a negative [n]. *)
Lemma str_shape (n : Z) :
  ∃ s, all_digits s = true ∧ (str n = s ∨ str n = String "-" s).
Proof.
  unfold str, pretty, pretty_Z. destruct n as [|x|x].
  - exists "0". split; [done | by left].
  - unfold pretty, pretty_positive.
    destruct (int_pretty_pos x) as (c & p & -> & Hc & Hp & _).
    exists (String c p). split; [| by left]. simpl. by rewrite Hc, Hp.
  - unfold pretty, pretty_positive.
    destruct (int_pretty_pos x) as (c & p & -> & Hc & Hp & _).
    exists (String c p). split; [| by right]. simpl. by rewrite Hc, Hp.
Qed.

Lemma str_lacks (c : ascii) (n : Z) :
  is_digit c = false → c ≠ "-"%char → lacks c (str n) = true.
Proof.
  intros Hc Hminus. destruct (str_shape n) as (s & Hs & [-> | ->]).
  - by apply all_digits_lacks.
  - change (lacks c (String "-" s)) with (negb (Ascii.eqb "-" c) && lacks c s).
    rewrite all_digits_lacks by done.
    assert (Ascii.eqb "-" c = false) as -> by (apply Ascii.eqb_neq; congruence).
    done.
Qed.

Lemma split_on_nonempty (sep : ascii) (s : string) : split_on sep s ≠ [].
Proof.
  destruct s as [|a s]; simpl; [done |].
  destruct (split_on sep s); [done |]. by destruct (Ascii.eqb a sep).
Qed.

Lemma split_on_lacks (sep : ascii) (s : string) :
  lacks sep s = true → split_on sep s = [s].
Proof.
  induction s as [|a s IH]; simpl; [done |].
  intros [Ha Hs]%andb_true_iff. rewrite IH by done.
  apply negb_true_iff in Ha. by rewrite Ha.
Qed.

(** A field without separator, a separator, and the rest. *)
Lemma split_on_field (sep : ascii) (f rest : string) :
  lacks sep f = true →
  split_on sep (f +:+ String sep rest) = f :: split_on sep rest.
Proof.
  induction f as [|a f IH]; intros Hf.
  - rewrite str_app_nil_l. simpl.
    destruct (split_on sep rest) eqn:Hrest; [by apply split_on_nonempty in Hrest |].
    by rewrite Ascii.eqb_refl.
  - rewrite str_app_cons. simpl in *.
    apply andb_true_iff in Hf as [Ha Hf]. rewrite IH by done.
    apply negb_true_iff in Ha. by rewrite Ha.
Qed.

(** Callback data made of "task_" and a decimal number is read as the number. *)
Lemma task_of_data_str (n : Z) :
  startswith "task_" ("task_" +:+ str n) = true
  ∧ task_of_data ("task_" +:+ str n) = Ok n.
Proof.
  split; [by destruct (str n); vm_compute |]. unfold task_of_data.
  change ("task_" +:+ str n) with ("task" +:+ String "_" (str n)).
  rewrite split_on_field by done.
  rewrite split_on_lacks by by apply str_lacks.
  simpl. by rewrite int_str.
Qed.

End DecimalShape.

(** X1. The keyboard of [cmd_start] and the parser of
    [process_task_selection] fit together: each button is labelled with a
    number from 1 to 19, its callback data passes the filter of the
    callback handler and is read back as that very number. *)
Theorem X1_buttons_read_back (label data : string) :
  (label, data) ∈ task_buttons →
  ∃ i : Z, 1 ≤ i ≤ 19 ∧ label = PyStr.str i
           ∧ PyStr.startswith "task_" data = true
           ∧ task_of_data data = Ok i.
Proof.
  unfold task_buttons. intros (i & [= -> ->] & Hi)%list_elem_of_fmap.
  apply elem_of_seqZ in Hi. exists i. split; [lia |]. split; [done |].
  apply task_of_data_str.
Qed.

Lemma X1_buttons_read_back_witness :
  ∃ i : Z, 1 ≤ i ≤ 19 ∧ "12" = PyStr.str i
           ∧ PyStr.startswith "task_" "task_12" = true
           ∧ task_of_data "task_12" = Ok i.
Proof.
  apply (X1_buttons_read_back "12" "task_12").
  apply (list_elem_of_lookup_2 _ 11%nat). reflexivity.
Defined.

(** X2. A list of administrator identifiers written in decimal and
    separated by commas is read from the environment as that list. *)
Theorem X2_admin_ids_read_back (ids : list Z) :
  ids ≠ [] →
  admin_ids_of_env (Some (comma_join (PyStr.str <$> ids))) = Ok ids.
Proof.
  intros Hne. unfold admin_ids_of_env.
  assert (∀ l, l ≠ [] →
               PyStr.split_on "," (comma_join (PyStr.str <$> l)) = PyStr.str <$> l) as Hsplit.
  { induction l as [|n l IH]; [done |]. intros _.
    destruct l as [|n' l].
    - simpl. by rewrite split_on_lacks by by apply str_lacks.
    - change (comma_join (PyStr.str <$> n :: n' :: l))
        with (PyStr.str n +:+ String "," (comma_join (PyStr.str <$> n' :: l))).
      rewrite split_on_field by by apply str_lacks.
      by rewrite IH. }
  assert (comma_join (PyStr.str <$> ids) ≠ "") as Hnonempty.
  { intros Hempty. specialize (Hsplit ids Hne). rewrite Hempty in Hsplit.
    destruct ids as [|n ids]; [done |]. simpl in Hsplit.
    injection Hsplit as Hn _.
    pose proof (int_str n) as Hint. rewrite <- Hn in Hint. done. }
  apply String.eqb_neq in Hnonempty. rewrite Hnonempty, Hsplit by done.
  clear. induction ids as [|n ids IH]; [done |].
  rewrite fmap_cons. cbn [ints_of]. by rewrite int_str, IH.
Qed.

Lemma X2_admin_ids_read_back_witness :
  admin_ids_of_env (Some "100,-7,2024") = Ok [100; -7; 2024].
Proof. apply (X2_admin_ids_read_back [100; -7; 2024]). discriminate. Defined.

(** X3. An empty field in the list of administrators, as a trailing or a
    doubled comma leaves one, makes the import fail with [ValueError]. *)
Theorem X3_admin_ids_empty_field (s : string) :
  s ≠ "" → "" ∈ PyStr.split_on "," s →
  admin_ids_of_env (Some s) = Raise ValueError.
Proof.
  intros Hs%String.eqb_neq Hin. unfold admin_ids_of_env. rewrite Hs.
  induction (PyStr.split_on "," s) as [|f fs IH].
  - by apply elem_of_nil in Hin.
  - simpl. apply elem_of_cons in Hin as [<- | Hin]; [done |].
    destruct (PyStr.int f); [| done]. by rewrite IH.
Qed.

Lemma X3_admin_ids_empty_field_witness :
  admin_ids_of_env (Some "100,200,") = Raise ValueError.
Proof.
  apply (X3_admin_ids_empty_field "100,200,"); [discriminate |].
  apply (list_elem_of_lookup_2 _ 2%nat). reflexivity.
Defined.

(** ** Loading any file *)

Section Loading.


Lemma int_keys_lookup (items : list (string * pyval)) (acc m : pydict) (n : Z) :
  int_keys items acc = Ok m →
  dict_get m n = match last_reading items n with
                 | Some v => Some v
                 | None => dict_get acc n
                 end.
Proof.
  unfold last_reading. revert acc.
  induction items as [|[k v] items IH]; intros acc; simpl.
  - by intros [= <-].
  - destruct (PyStr.int k) as [i|] eqn:Hk; [| done].
    intros Hm. rewrite (IH _ Hm). clear IH Hm.
    destruct (decide (Some i = Some n)) as [[= ->]|Hne].
    + rewrite last_cons. destruct (last _); [done |]. apply dict_get_set_eq.
    + destruct (last _); [done |]. apply dict_get_set_ne. congruence.
Qed.

End Loading.


(** X5. When several keys of the file read as the same task number (as
    "1" and "01" do), the task gets the value of the last of them; a task
    no key reads as is absent from the catalog. *)
Theorem X5_load_last_wins (items : list (string * pyval)) (m : pydict) (n : Z) :
  load_materials (Document (PDict items)) = Ok m →
  dict_get m n = last_reading items n.
Proof.
  simpl. intros Hm. rewrite (int_keys_lookup items [] m n Hm).
  by destruct (last_reading items n).
Qed.

Lemma X5_load_last_wins_witness :
  dict_get [(1, PStr "second"); (2, PStr "other")] 1 = Some (PStr "second").
Proof.
  apply (X5_load_last_wins
           [("1", PStr "first"); ("2", PStr "other"); (" 01 ", PStr "second")]
           [(1, PStr "second"); (2, PStr "other")] 1).
  reflexivity.
Defined.

(** X6. Writing back a catalog that was loaded and loading it again gives
    the same catalog, also when the keys of the original file were not in
    canonical decimal form. *)
Theorem X6_load_save_load (f : file) (m : pydict) (old : file) :
  load_materials f = Ok m →
  load_materials (save_materials WriteOk m old).1 = Ok m.
Proof.
  intros Hload. simpl. apply load_dump. by eapply load_materials_NoDup.
Qed.

Lemma X6_load_save_load_witness :
  load_materials
    (save_materials WriteOk [(1, PList []); (19, PList [])] Unparsable).1
  = Ok [(1, PList []); (19, PList [])].
Proof.
  apply (X6_load_save_load (Document (PDict [("+1", PList []); ("1_9", PList [])]))).
  reflexivity.
Defined.

(** ** What one update can do to the state *)

Section Effects.
Variables (cfg : config) (e : env) (st : bot).

Lemma cmd_add_effect (m : message) :
  after (cmd_add cfg e st m) = st
  ∨ ∃ t, from_user m ∈ ADMIN_IDS cfg ∧ 1 ≤ t ≤ 19
         ∧ after (cmd_add cfg e st m) = set_waiting st (fsm_key m) t.
Proof.
  unfold cmd_add, is_admin.
  destruct (bool_decide_reflect (from_user m ∈ ADMIN_IDS cfg)) as [Hadmin|]; [| by left].
  simpl. destruct (text_of m) as [text|]; [| by left].
  destruct (PyStr.split_maxsplit1 text) as [|w [|arg rest]]; [by left | by left |].
  destruct (PyStr.isdigit arg); [| by left]. simpl.
  destruct (PyStr.int arg) as [t|]; [| by left].
  destruct (t <? 1) eqn:H1; [by left |].
  destruct (19 <? t) eqn:H19; [by left |].
  right. exists t. apply Z.ltb_ge in H1, H19. simpl. split; [done |]. split; [lia | done].
Qed.

Lemma handle_file_upload_effect (m : message) (t : Z) :
  after (handle_file_upload e st m t) = st
  ∨ ∃ entry c, append_material (materials st) t entry = Ok c
               ∧ after (handle_file_upload e st m t)
                 = Bot c (fsm st) (save_materials (write e) c (data_file st)).1.
Proof.
  unfold handle_file_upload.
  destruct (uploaded_file m) as [[ft|] [fid|]]; try by left.
  destruct (String.eqb fid ""); [by left |].
  destruct (append_material _ _ _) as [c|] eqn:Happ; [| by left].
  right. exists (media_entry ft fid), c. split; [done |].
  by destruct (save_materials (write e) c (data_file st)) as [f' [x|]].
Qed.

Lemma cmd_list_effect (m : message) : after (cmd_list cfg e st m) = st.
Proof.
  unfold cmd_list. destruct (negb _); [done |].
  destruct (materials st); [done |]. by destruct (list_lines _ _).
Qed.

Lemma cmd_checkme_effect (m : message) : after (cmd_checkme cfg e st m) = st.
Proof. unfold cmd_checkme. by destruct (is_admin _ _). Qed.

Lemma process_task_selection_effect (data : string) :
  after (process_task_selection e st data) = st.
Proof.
  unfold process_task_selection.
  destruct (task_of_data data); [| done].
  destruct (negb _); [done |].
  destruct (dict_get _ _) as [v|]; [| done].
  destruct (negb _); [done |]. by destruct (py_iter v).
Qed.

(** The four things an update can do: nothing, bind the sender to a task,
    end the sender's upload, append to the sender's task and save. *)
Lemma dispatch_effect (u : update) :
  after (dispatch cfg e st u) = st
  ∨ (∃ m t, u = MessageUpdate m ∧ is_command cfg "add" m = true
            ∧ from_user m ∈ ADMIN_IDS cfg ∧ 1 ≤ t ≤ 19
            ∧ after (dispatch cfg e st u) = set_waiting st (fsm_key m) t)
  ∨ (∃ m t, u = MessageUpdate m ∧ is_command cfg "done" m = true
            ∧ fsm st !! fsm_key m = Some t
            ∧ after (dispatch cfg e st u) = clear_state st (fsm_key m))
  ∨ (∃ m t entry c, u = MessageUpdate m ∧ is_media m = true
            ∧ fsm st !! fsm_key m = Some t
            ∧ append_material (materials st) t entry = Ok c
            ∧ after (dispatch cfg e st u)
              = Bot c (fsm st) (save_materials (write e) c (data_file st)).1).
Proof.
  destruct u as [m|data]; simpl.
  - unfold dispatch_message.
    destruct (is_command cfg "start" m); [by left |].
    destruct (is_command cfg "add" m) eqn:Hadd.
    { destruct (cmd_add_effect m) as [? | (t & ? & ? & ?)]; [by left |].
      right; left. by exists m, t. }
    destruct (fsm st !! fsm_key m) as [t|] eqn:Hfsm.
    + destruct (is_media m) eqn:Hmedia.
      { destruct (handle_file_upload_effect m t) as [? | (entry & c & ? & ?)]; [by left |].
        do 3 right. by exists m, t, entry, c. }
      destruct (is_command cfg "done" m) eqn:Hdone.
      { right; right; left. by exists m, t. }
      destruct (is_command cfg "checkme" m); [left; apply cmd_checkme_effect |].
      destruct (is_command cfg "list" m); [left; apply cmd_list_effect |].
      by left.
    + destruct (is_command cfg "checkme" m); [left; apply cmd_checkme_effect |].
      destruct (is_command cfg "list" m); [left; apply cmd_list_effect |].
      by left.
  - left. unfold dispatch_callback.
    destruct (PyStr.startswith _ _); [apply process_task_selection_effect | done].
Qed.

End Effects.

Section RunInvariants.
Variables (cfg : config).

Lemma dispatch_sessions_ok (e : env) (st : bot) (u : update) :
  sessions_ok cfg st → sessions_ok cfg (after (dispatch cfg e st u)).
Proof.
  intros Hok.
  destruct (dispatch_effect cfg e st u)
    as [-> | [(m & t & _ & _ & Hadmin & Ht & ->)
           | [(m & t & _ & _ & _ & ->) | (m & t & entry & c & _ & _ & _ & _ & ->)]]];
    unfold sessions_ok in *; simpl; [done | | | done].
  - by apply map_Forall_insert_2.
  - by apply map_Forall_delete.
Qed.

Lemma run_sessions_ok (us : list (env * update)) (st : bot) :
  sessions_ok cfg st → sessions_ok cfg (run cfg st us).
Proof.
  revert st. induction us as [|[e u] us IH]; intros st Hok; [done |].
  simpl. by apply IH, dispatch_sessions_ok.
Qed.

Lemma append_material_keys (c c' : pydict) (t : Z) (entry : pyval) (k : Z) :
  append_material c t entry = Ok c' →
  k ∈ dict_keys c' → k ∈ dict_keys c ∨ k = t.
Proof.
  assert (∀ d v, k ∈ dict_keys (dict_set d t v) → k ∈ dict_keys d ∨ k = t) as Hset.
  { intros d v. destruct (decide (t ∈ dict_keys d)) as [Hin|Hnin].
    - rewrite dict_keys_set_present by done. by left.
    - rewrite dict_set_fresh, dict_keys_app by done.
      intros [? | ?%list_elem_of_singleton]%elem_of_app; [by left | by right]. }
  unfold append_material. intros Happ Hk.
  repeat case_match; simplify_eq.
  - by apply Hset in Hk.
  - apply Hset in Hk as [Hk | ?]; [| by right]. by apply Hset in Hk.
Qed.

Lemma append_material_grows (c c' : pydict) (t t' : Z) (entry : pyval) (v : pyval) :
  append_material c t entry = Ok c' →
  dict_get c t' = Some v →
  dict_get c' t' = Some v
  ∨ ∃ old, v = PList old ∧ dict_get c' t' = Some (PList (old ++ [entry])).
Proof.
  intros Happ Hget. destruct (decide (t' = t)) as [->|Hne].
  - right. unfold append_material, dict_mem in Happ. rewrite Hget in Happ.
    rewrite Hget in Happ. destruct v as [| | | |old|]; try done.
    simplify_eq. exists old. split; [done |]. apply dict_get_set_eq.
  - left. by rewrite (append_material_frame c c' t t' entry).
Qed.

End RunInvariants.

(** ** Invariants of the running bot *)

Lemma started_sessions_ok (cfg : config) (f : file) (st : bot)
    (us : list (env * update)) :
  startup f = Ok st → sessions_ok cfg (run cfg st us).
Proof.
  unfold startup. destruct (load_materials f) as [c|]; [| done].
  intros [= <-]. apply run_sessions_ok. apply map_Forall_empty.
Qed.

(** X7. From the start of the process on, every upload in progress
    belongs to an administrator and is bound to a task from 1 to 19. *)
Theorem X7_sessions_admin_in_range (cfg : config) (f : file) (st : bot)
    (us : list (env * update)) (k : Z * Z) (t : Z) :
  startup f = Ok st →
  fsm (run cfg st us) !! k = Some t →
  k.2 ∈ ADMIN_IDS cfg ∧ 1 ≤ t ≤ 19.
Proof.
  intros Hstart Hk. by apply (started_sessions_ok cfg f st us Hstart k t).
Qed.

Lemma X7_sessions_admin_in_range_witness :
  (100, 100).2 ∈ ADMIN_IDS Scenario.cfg ∧ 1 ≤ 5 ≤ 19.
Proof.
  apply (X7_sessions_admin_in_range Scenario.cfg Missing (Bot [] ∅ Missing)
           [(Scenario.env_ok, MessageUpdate (Scenario.admin_msg (Text "/add 5")))]
           (100, 100) 5); reflexivity.
Defined.

(** X8. Nothing a sender outside [ADMIN_IDS] writes to the bot changes
    its state: neither the catalog, nor the file, nor anybody's upload. *)
Theorem X8_outsider_changes_nothing (cfg : config) (f : file) (st0 : bot)
    (us : list (env * update)) (e : env) (m : message) :
  startup f = Ok st0 →
  from_user m ∉ ADMIN_IDS cfg →
  let st := run cfg st0 us in
  after (dispatch_message cfg e st m) = st.
Proof.
  intros Hstart Hout st.
  assert (∀ t, fsm st !! fsm_key m = Some t → False) as Hidle.
  { intros t Ht.
    by destruct (started_sessions_ok cfg f st0 us Hstart (fsm_key m) t Ht). }
  destruct (dispatch_effect cfg e st (MessageUpdate m))
    as [H | [(m' & t & [= <-] & _ & Hadmin & _)
           | [(m' & t & [= <-] & _ & Hfsm & _)
             | (m' & t & entry & c & [= <-] & _ & Hfsm & _)]]];
    [done | done | by destruct (Hidle t) | by destruct (Hidle t)].
Qed.

Lemma X8_outsider_changes_nothing_witness :
  let st := run Scenario.cfg (Bot [] ∅ Missing)
              [(Scenario.env_ok, MessageUpdate (Scenario.admin_msg (Text "/add 5")))] in
  after (dispatch_message Scenario.cfg Scenario.env_ok st
           (Message 100 666 (Text "/add 7"))) = st.
Proof.
  apply (X8_outsider_changes_nothing Scenario.cfg Missing (Bot [] ∅ Missing)
           [(Scenario.env_ok, MessageUpdate (Scenario.admin_msg (Text "/add 5")))]
           Scenario.env_ok (Message 100 666 (Text "/add 7"))).
  - reflexivity.
  - intros Hin. apply list_elem_of_singleton in Hin. discriminate.
Defined.

(** X9. The state changes only on three kinds of input: [/add] from an
    administrator, and [/done] or a media file from a sender whose upload
    is in progress. Callback queries, [/start], [/list], [/checkme] and any
    other text leave it as it is. *)
Theorem X9_what_changes_state (cfg : config) (e : env) (st : bot) (u : update) :
  after (dispatch cfg e st u) ≠ st →
  ∃ m, u = MessageUpdate m
       ∧ (is_command cfg "add" m = true ∧ from_user m ∈ ADMIN_IDS cfg
          ∨ is_command cfg "done" m = true ∧ is_Some (fsm st !! fsm_key m)
          ∨ is_media m = true ∧ is_Some (fsm st !! fsm_key m)).
Proof.
  intros Hne.
  destruct (dispatch_effect cfg e st u)
    as [H | [(m & t & -> & Hadd & Hadmin & _)
           | [(m & t & -> & Hdone & Hfsm & _)
             | (m & t & entry & c & -> & Hmedia & Hfsm & _)]]];
    [done | exists m | exists m | exists m]; (split; [done |]).
  - by left.
  - right; left. by rewrite Hfsm.
  - right; right. by rewrite Hfsm.
Qed.

Lemma X9_what_changes_state_witness :
  ∃ m, MessageUpdate (Scenario.admin_msg (Text "/done")) = MessageUpdate m
       ∧ (is_command Scenario.cfg "add" m = true ∧ from_user m ∈ ADMIN_IDS Scenario.cfg
          ∨ is_command Scenario.cfg "done" m = true
            ∧ is_Some (fsm Scenario.filling5 !! fsm_key m)
          ∨ is_media m = true ∧ is_Some (fsm Scenario.filling5 !! fsm_key m)).
Proof.
  apply (X9_what_changes_state Scenario.cfg Scenario.env_ok Scenario.filling5).
  intros H. apply (f_equal (λ s, fsm s !! (100, 100))) in H. discriminate H.
Defined.

(** X10. The catalog in memory only grows: whatever updates arrive, a
    task that holds a sequence of references keeps them, in their order,
    at the front of what it holds later. *)
Theorem X10_catalog_append_only (cfg : config) (us : list (env * update)) :
  ∀ (st : bot) (t : Z) (old : list pyval),
    dict_get (materials st) t = Some (PList old) →
    ∃ more, dict_get (materials (run cfg st us)) t = Some (PList (old ++ more)).
Proof.
  induction us as [|[e u] us IH]; intros st t old Hget.
  - exists []. simpl. by rewrite app_nil_r.
  - simpl.
    assert (∃ more, dict_get (materials (after (dispatch cfg e st u))) t
                    = Some (PList (old ++ more))) as [more1 H1].
    { destruct (dispatch_effect cfg e st u)
        as [-> | [(m & t' & _ & _ & _ & _ & ->)
               | [(m & t' & _ & _ & _ & ->)
                 | (m & t' & entry & c & _ & _ & _ & Happ & ->)]]]; simpl;
        try (exists []; by rewrite app_nil_r).
      destruct (append_material_grows _ _ _ t _ _ Happ Hget)
        as [H | (old' & [= <-] & H)].
      - exists []. by rewrite app_nil_r.
      - by exists [entry]. }
    destruct (IH _ t _ H1) as [more2 H2].
    exists (more1 ++ more2). by rewrite app_assoc.
Qed.

Lemma X10_catalog_append_only_witness :
  ∃ more,
    dict_get (materials (run Scenario.cfg Scenario.filling5
                           [(Scenario.env_cut, MessageUpdate (Scenario.admin_msg (AudioMsg "B")));
                            (Scenario.env_ok, MessageUpdate (Scenario.admin_msg (Text "/done")))]))
             5
    = Some (PList ([media_entry "document" "A"] ++ more)).
Proof.
  apply (X10_catalog_append_only Scenario.cfg _ Scenario.filling5 5). reflexivity.
Defined.

(** X11. The bot itself only ever creates tasks numbered 1 to 19: a key
    of the catalog is either one the file had at the start or lies in
    that range. *)
Theorem X11_catalog_keys (cfg : config) (f : file) (st : bot)
    (us : list (env * update)) (k : Z) :
  startup f = Ok st →
  k ∈ dict_keys (materials (run cfg st us)) →
  k ∈ dict_keys (materials st) ∨ 1 ≤ k ≤ 19.
Proof.
  intros Hstart.
  assert (sessions_ok cfg st) as Hok by apply (started_sessions_ok cfg f st [] Hstart).
  clear Hstart. revert st Hok. induction us as [|[e u] us IH]; intros st Hok Hk.
  - by left.
  - simpl in Hk.
    apply IH in Hk as [Hk | ?]; [| by right | by apply dispatch_sessions_ok].
    destruct (dispatch_effect cfg e st u)
      as [H | [(m & t & _ & _ & _ & _ & H)
             | [(m & t & _ & _ & _ & H)
               | (m & t & entry & c & _ & _ & Hfsm & Happ & H)]]];
      rewrite H in Hk; simpl in Hk; try by left.
    destruct (append_material_keys _ _ _ _ k Happ Hk) as [? | ->]; [by left |].
    right. by destruct (Hok _ _ Hfsm).
Qed.

Lemma X11_catalog_keys_witness :
  7 ∈ dict_keys Scenario.catalog5 ∨ 1 ≤ 7 ≤ 19.
Proof.
  apply (X11_catalog_keys Scenario.cfg (Document (json_dump Scenario.catalog5))
           Scenario.idle5
           [(Scenario.env_ok, MessageUpdate (Scenario.admin_msg (Text "/add 7")));
            (Scenario.env_ok, MessageUpdate (Scenario.admin_msg (VideoMsg "V")))] 7).
  - reflexivity.
  - apply (list_elem_of_lookup_2 _ 1%nat). reflexivity.
Defined.

(** X12. As long as every save completes, the file and the catalog agree
    after every update: a restart at any moment would load exactly the
    catalog that is in memory. *)
Theorem X12_durable_run (cfg : config) (us : list (env * update)) :
  ∀ st : bot,
    durable st →
    Forall (λ eu, write eu.1 = WriteOk) us →
    durable (run cfg st us).
Proof.
  induction us as [|[e u] us IH]; intros st Hd Hw; [done |].
  apply Forall_cons in Hw as [Hw Hws]. simpl in Hw. simpl. apply IH; [| done].
  destruct (dispatch_effect cfg e st u)
    as [-> | [(m & t & _ & _ & _ & _ & ->)
           | [(m & t & _ & _ & _ & ->)
             | (m & t & entry & c & _ & _ & _ & Happ & ->)]]]; try done.
  unfold durable. rewrite Hw. simpl. apply load_dump.
  eapply append_material_NoDup; [done |]. by eapply load_materials_NoDup.
Qed.

Lemma X12_durable_run_witness :
  durable (run Scenario.cfg Scenario.filling5
             [(Scenario.env_ok, MessageUpdate (Scenario.admin_msg (AudioMsg "B")));
              (Scenario.env_ok, MessageUpdate (Scenario.admin_msg (Text "/add 2")));
              (Scenario.env_ok, MessageUpdate (Scenario.admin_msg (VideoMsg "C")))]).
Proof.
  apply (X12_durable_run Scenario.cfg _ Scenario.filling5).
  - reflexivity.
  - repeat constructor.
Defined.

(** X13. Uploads in progress do not interfere: a message changes at most
    the upload of its own sender in its own chat. *)
Theorem X13_session_isolation (cfg : config) (e : env) (st : bot) (m : message)
    (k : Z * Z) :
  k ≠ fsm_key m →
  fsm (after (dispatch_message cfg e st m)) !! k = fsm st !! k.
Proof.
  intros Hk.
  destruct (dispatch_effect cfg e st (MessageUpdate m))
    as [H | [(m' & t & [= <-] & _ & _ & _ & H)
           | [(m' & t & [= <-] & _ & _ & H)
             | (m' & t & entry & c & [= <-] & _ & _ & _ & H)]]];
    simpl in H; rewrite H; simpl; [done | | | done].
  - by apply lookup_insert_ne.
  - by apply lookup_delete_ne.
Qed.

Lemma X13_session_isolation_witness :
  fsm (after (dispatch_message Scenario.cfg Scenario.env_ok Scenario.filling5
                (Message 200 100 (Text "/add 9")))) !! (100, 100)
  = Some 5.
Proof.
  rewrite (X13_session_isolation Scenario.cfg Scenario.env_ok Scenario.filling5
             (Message 200 100 (Text "/add 9")) (100, 100)); [reflexivity | discriminate].
Defined.

(** ** Commands *)

Section Commands.
Import PyStr.
Variables (cfg : config) (e : env) (st : bot).

Lemma str_cases (n : Z) :
  ∃ c p, is_digit c = true ∧ all_digits p = true
         ∧ (0 ≤ n ∧ str n = String c p ∨ n < 0 ∧ str n = String "-" (String c p)).
Proof.
  unfold str, pretty, pretty_Z. destruct n as [|x|x].
  - exists "0"%char, "". split; [done |]. split; [done |]. by left.
  - unfold pretty, pretty_positive.
    destruct (int_pretty_pos x) as (c & p & -> & Hc & Hp & _).
    exists c, p. split; [done |]. split; [done |]. left. split; [lia | done].
  - unfold pretty, pretty_positive.
    destruct (int_pretty_pos x) as (c & p & -> & Hc & Hp & _).
    exists c, p. split; [done |]. split; [done |]. right. split; [lia | done].
Qed.

Lemma isdigit_str (n : Z) : isdigit (str n) = bool_decide (0 ≤ n).
Proof.
  destruct (str_cases n) as (c & p & Hc & Hp & [[Hn ->] | [Hn ->]]).
  - rewrite bool_decide_eq_true_2 by done. simpl. by rewrite Hc, Hp.
  - rewrite bool_decide_eq_false_2 by lia. done.
Qed.

(** The two fields of "/add " followed by a decimal number. *)
Lemma split_add_str (n : Z) :
  split_maxsplit1 ("/add " +:+ str n) = ["/add"; str n].
Proof.
  assert (∃ a r, str n = String a r ∧ is_space a = false) as (a & r & -> & Ha).
  { destruct (str_cases n) as (c & p & Hc & Hp & [[_ ->] | [_ ->]]).
    - exists c, p. split; [done |]. by apply is_digit_not_space.
    - by exists "-"%char, (String c p). }
  change ("/add " +:+ String a r)
    with (String "/" (String "a" (String "d" (String "d" (String " " (String a r)))))).
  unfold split_maxsplit1. simpl. by rewrite Ha.
Qed.

Lemma add_str_is_add (chat user n : Z) :
  is_command cfg "add" (Message chat user (Text ("/add " +:+ str n))) = true
  ∧ is_command cfg "start" (Message chat user (Text ("/add " +:+ str n))) = false.
Proof.
  unfold is_command, command_of, text_of. cbn [body].
  by rewrite split_add_str.
Qed.

(** [/list] is answered by [cmd_list] whether or not an upload is in progress. *)
Lemma dispatch_list (m : message) :
  is_command cfg "list" m = true → dispatch_message cfg e st m = cmd_list cfg e st m.
Proof.
  intros Hcmd. unfold dispatch_message.
  rewrite (is_command_other cfg m "list" "start"), (is_command_other cfg m "list" "add") by done.
  rewrite (is_command_not_media cfg m "list") by done.
  rewrite (is_command_other cfg m "list" "done"), (is_command_other cfg m "list" "checkme") by done.
  rewrite Hcmd. by destruct (fsm st !! fsm_key m).
Qed.

Lemma list_lines_rows (d : pydict) (keys : list Z) :
  Forall (λ k, ∃ l, dict_get d k = Some (PList l)) keys →
  list_lines d keys = Ok ((λ k, msg_list_line k (files_count d k)) <$> keys).
Proof.
  induction 1 as [|k keys [l Hl] _ IH]; [done |].
  rewrite fmap_cons. cbn [list_lines]. unfold files_count at 1.
  rewrite Hl. simpl. by rewrite IH.
Qed.

Lemma dict_get_key (d : pydict) (k : Z) (P : pyval → Prop) :
  Forall (λ kv, P kv.2) d → k ∈ dict_keys d → ∃ v, dict_get d k = Some v ∧ P v.
Proof.
  induction 1 as [|[k' v'] d Hv _ IH]; [by intros ?%elem_of_nil |].
  rewrite dict_keys_cons. intros Hk. simpl.
  destruct (decide (k' = k)) as [->|Hne]; [by exists v' |].
  apply elem_of_cons in Hk as [-> | Hk]; [done | by apply IH].
Qed.

End Commands.

(** X14. [/add] followed by a number in decimal, from an administrator:
    a number from 1 to 19 binds the sender to that task, whatever the
    sender was bound to before; zero or a number above 19 is refused with
    the range message, a negative number with the usage message, and in
    both cases the state stays as it was. *)
Theorem X14_add_decimal (cfg : config) (e : env) (st : bot) (chat user n : Z) :
  user ∈ ADMIN_IDS cfg →
  let out := dispatch_message cfg e st (Message chat user (Text ("/add " +:+ PyStr.str n))) in
  (1 ≤ n ≤ 19 →
     after out = set_waiting st (chat, user) n
     ∧ trace out = [Call (Reply (msg_send_file n)) (tr e 0%nat (Reply (msg_send_file n)))])
  ∧ (n = 0 ∨ 19 < n →
     after out = st
     ∧ trace out = [Call (Reply msg_add_range) (tr e 0%nat (Reply msg_add_range))])
  ∧ (n < 0 →
     after out = st
     ∧ trace out = [Call (Reply msg_add_usage) (tr e 0%nat (Reply msg_add_usage))]).
Proof.
  intros Hadmin out. subst out.
  destruct (add_str_is_add cfg chat user n) as [Hadd Hstart].
  unfold dispatch_message. rewrite Hstart, Hadd.
  unfold cmd_add, is_admin, text_of, fsm_key. cbn [from_user body chat_id].
  rewrite bool_decide_eq_true_2 by done. cbn [negb].
  rewrite split_add_str, isdigit_str, int_str.
  split; [| split]; intros Hn.
  - rewrite bool_decide_eq_true_2 by lia. cbn [negb].
    assert ((n <? 1) || (19 <? n) = false) as ->.
    { apply orb_false_iff. split; apply Z.ltb_ge; lia. }
    done.
  - rewrite bool_decide_eq_true_2 by lia. cbn [negb].
    assert ((n <? 1) || (19 <? n) = true) as ->.
    { apply orb_true_iff. destruct Hn as [-> | Hn]; [by left |]. right. by apply Z.ltb_lt. }
    done.
  - by rewrite bool_decide_eq_false_2 by lia.
Qed.

Lemma X14_add_decimal_witness :
  let out := dispatch_message Scenario.cfg Scenario.env_ok Scenario.filling5
               (Message 100 100 (Text ("/add " +:+ PyStr.str 20))) in
  after out = Scenario.filling5
  ∧ trace out = [Call (Reply msg_add_range) true].
Proof.
  refine (proj1 (proj2 (X14_add_decimal Scenario.cfg Scenario.env_ok Scenario.filling5
                          100 100 20 _)) _).
  - apply list_elem_of_singleton. reflexivity.
  - right. lia.
Defined.

(** X15. [/add] and [/list] from a sender outside [ADMIN_IDS] with no
    upload in progress are answered with the text that refuses
    administrator rights and with nothing else; for [/add] the argument
    is not even looked at. *)
Theorem X15_outsider_refused (cfg : config) (e : env) (st : bot) (m : message) :
  from_user m ∉ ADMIN_IDS cfg →
  fsm st !! fsm_key m = None →
  is_command cfg "add" m = true ∨ is_command cfg "list" m = true →
  let out := dispatch_message cfg e st m in
  trace out = [Call (Reply msg_not_admin) (tr e 0%nat (Reply msg_not_admin))]
  ∧ after out = st.
Proof.
  intros Hout Hfsm Hcmd out. subst out.
  assert (is_admin cfg (from_user m) = false) as Hadmin.
  { unfold is_admin. by apply bool_decide_eq_false_2. }
  destruct Hcmd as [Hadd | Hlist].
  - rewrite (dispatch_add cfg e st m Hadd). unfold cmd_add. by rewrite Hadmin.
  - rewrite (dispatch_list cfg e st m Hlist). unfold cmd_list. by rewrite Hadmin.
Qed.

Lemma X15_outsider_refused_witness :
  let out := dispatch_message Scenario.cfg Scenario.env_ok Scenario.filling5
               (Message 7 7 (Text "/list")) in
  trace out = [Call (Reply msg_not_admin) true] ∧ after out = Scenario.filling5.
Proof.
  apply (X15_outsider_refused Scenario.cfg Scenario.env_ok Scenario.filling5
           (Message 7 7 (Text "/list"))).
  - intros Hin. apply list_elem_of_singleton in Hin. discriminate.
  - reflexivity.
  - right. reflexivity.
Defined.

(** X16. [/list] from an administrator, on a catalog that is not empty
    and whose values are lists, is answered with the heading followed by
    one line per key of the catalog, in ascending order of the keys, each
    with the number of entries of its task; a task with no entries is
    listed too, with the number 0. *)
Theorem X16_inventory (cfg : config) (e : env) (st : bot) (m : message) :
  from_user m ∈ ADMIN_IDS cfg →
  is_command cfg "list" m = true →
  materials st ≠ [] →
  Forall (λ kv, ∃ l, kv.2 = PList l) (materials st) →
  ∃ keys : list Z,
    Sorted Z.le keys
    ∧ keys ≡ₚ dict_keys (materials st)
    ∧ trace (dispatch_message cfg e st m)
      = (let text := join_lines (msg_list_head
                       :: ((λ k, msg_list_line k (files_count (materials st) k)) <$> keys)) in
         [Call (Reply text) (tr e 0%nat (Reply text))])
    ∧ after (dispatch_message cfg e st m) = st.
Proof.
  intros Hadmin Hlist Hne Hall.
  exists (merge_sort Z.le (dict_keys (materials st))).
  split; [apply (Sorted_merge_sort Z.le) |].
  split; [apply merge_sort_Permutation |].
  rewrite (dispatch_list cfg e st m Hlist). unfold cmd_list, is_admin.
  rewrite bool_decide_eq_true_2 by done. cbn [negb].
  destruct (materials st) as [|kv d] eqn:Hm; [done |]. rewrite <- Hm in *.
  rewrite list_lines_rows; [done |].
  apply Forall_forall. intros k Hk.
  rewrite merge_sort_Permutation in Hk.
  destruct (dict_get_key (materials st) k (λ v, ∃ l, v = PList l) Hall Hk)
    as (v & Hv & l & ->).
  by exists l.
Qed.

Lemma X16_inventory_witness :
  ∃ keys : list Z,
    Sorted Z.le keys
    ∧ keys ≡ₚ [7; 3]
    ∧ trace (dispatch_message Scenario.cfg Scenario.env_ok
               (Bot [(7, PList [PNone]); (3, PList [])] ∅ Missing)
               (Scenario.admin_msg (Text "/list")))
      = (let text := join_lines (msg_list_head
                       :: ((λ k, msg_list_line k
                                   (files_count [(7, PList [PNone]); (3, PList [])] k))
                             <$> keys)) in
         [Call (Reply text) true])
    ∧ after (dispatch_message Scenario.cfg Scenario.env_ok
               (Bot [(7, PList [PNone]); (3, PList [])] ∅ Missing)
               (Scenario.admin_msg (Text "/list")))
      = Bot [(7, PList [PNone]); (3, PList [])] ∅ Missing.
Proof.
  apply (X16_inventory Scenario.cfg Scenario.env_ok
           (Bot [(7, PList [PNone]); (3, PList [])] ∅ Missing)
           (Scenario.admin_msg (Text "/list"))).
  - apply list_elem_of_singleton. reflexivity.
  - reflexivity.
  - discriminate.
  - repeat constructor; by eexists.
Defined.

(** X17. A file for a task whose stored value is not a list (a catalog
    file can hold any JSON value under a key) is not accepted: the handler
    ends with [AttributeError] before anything is saved or sent, and the
    state is as it was. *)
Theorem X17_upload_to_non_list (cfg : config) (e : env) (st : bot) (m : message)
    (t : Z) (r v : pyval) :
  fsm st !! fsm_key m = Some t →
  entry_of m = Some r →
  dict_get (materials st) t = Some v →
  (∀ l, v ≠ PList l) →
  let out := dispatch_message cfg e st m in
  raised out = Some AttributeError ∧ trace out = [] ∧ after out = st.
Proof.
  intros Hfsm Hr Hget Hv out. subst out.
  rewrite (dispatch_upload cfg e st m t) by eauto using entry_of_is_media.
  unfold handle_file_upload. unfold entry_of in Hr.
  destruct (uploaded_file m) as [[ft|] [fid|]]; try done.
  destruct (String.eqb fid ""); [done |].
  unfold append_material, dict_mem. rewrite Hget, Hget.
  destruct v as [| | | |l|]; try done. by destruct (Hv l).
Qed.

Lemma X17_upload_to_non_list_witness :
  let st := Bot [(5, PStr "see task 4")] {[ (100, 100) := 5 ]} Missing in
  let out := dispatch_message Scenario.cfg Scenario.env_ok st
               (Scenario.admin_msg (DocumentMsg "X")) in
  raised out = Some AttributeError ∧ trace out = [] ∧ after out = st.
Proof.
  intros st.
  apply (X17_upload_to_non_list Scenario.cfg Scenario.env_ok st
           (Scenario.admin_msg (DocumentMsg "X")) 5
           (media_entry "document" "X") (PStr "see task 4")); try reflexivity.
  intros l. discriminate.
Defined.

(** X18. Selecting a task that is absent from the catalog, or present
    with an empty list, is acknowledged and answered with the one text
    that names the task as having no material; nothing is sent besides.
    This holds for the callback data of any task number. *)
Theorem X18_no_material (e : env) (st : bot) (t : Z) :
  stored_list (materials st) t = Some [] →
  tr e 0%nat AnswerCallback = true →
  let out := dispatch_callback e st ("task_" +:+ PyStr.str t) in
  trace out = [Call AnswerCallback true;
               Call (Answer (msg_no_material t)) (tr e 1%nat (Answer (msg_no_material t)))]
  ∧ after out = st.
Proof.
  intros Hstored Hcb out. subst out.
  destruct (task_of_data_str t) as [Hstart Hdata].
  unfold dispatch_callback, process_task_selection. rewrite Hstart, Hdata, Hcb.
  unfold stored_list in Hstored. cbn [negb].
  destruct (dict_get (materials st) t) as [v|]; [| done].
  destruct v as [| | | |l|]; try done. by simplify_eq.
Qed.

Lemma X18_no_material_witness :
  let out := dispatch_callback Scenario.env_ok Scenario.idle5 ("task_" +:+ PyStr.str 12) in
  trace out = [Call AnswerCallback true; Call (Answer (msg_no_material 12)) true]
  ∧ after out = Scenario.idle5.
Proof.
  apply (X18_no_material Scenario.env_ok Scenario.idle5 12); reflexivity.
Defined.

(** ** Delivery failures and the log *)

Section Logging.
Variables (t : transport) (task_id : Z).

Lemma media_action_sent_file (ft fid : pyval) (a : action) :
  media_action ft fid = Some a → sent_file a = Some fid ∧ is_media_call a = true.
Proof.
  unfold media_action. destruct ft; try done.
  repeat case_match; by intros [= <-].
Qed.

Lemma send_all_logged (entries : list pyval) (n : nat) :
  logged (send_all t task_id entries n).1
  = omap sent_file (failed_sends (send_all t task_id entries n).1).
Proof.
  revert n. induction entries as [|entry entries IH]; intros n; [done |].
  cbn [send_all]. destruct (unpack2 entry) as [[ft fid]|]; [| done].
  destruct (media_action ft fid) as [a|] eqn:Ha; [| apply IH].
  destruct (media_action_sent_file _ _ _ Ha) as [Hfile Hmedia].
  destruct (t n a).
  - specialize (IH (S n)). destruct (send_all t task_id entries (S n)) as [evs r].
    simpl in *. done.
  - destruct (t (S n) _).
    + specialize (IH (S (S n))).
      destruct (send_all t task_id entries (S (S n))) as [evs r].
      simpl in *. rewrite Hmedia. simpl. by rewrite Hfile, IH.
    + simpl. rewrite Hmedia. simpl. by rewrite Hfile.
Qed.

End Logging.

(** X19. No failed delivery goes unrecorded: in every run of
    [process_task_selection], whatever the transport does, the log holds
    one record per media send that raised, with the file identifier of
    that send and in the order of the sends, and no other record. *)
Theorem X19_failures_logged (e : env) (st : bot) (data : string) :
  logged (trace (process_task_selection e st data))
  = omap sent_file (failed_sends (trace (process_task_selection e st data))).
Proof.
  unfold process_task_selection.
  destruct (task_of_data data) as [task_id|]; [| done].
  destruct (tr e 0%nat AnswerCallback); [| done]. cbn [negb].
  destruct (dict_get (materials st) task_id) as [v|];
    [| simpl; by destruct (tr e 1%nat _)].
  destruct (negb (truthy v)); [simpl; by destruct (tr e 1%nat _) |].
  destruct (py_iter v) as [entries|]; [| done].
  cbn [trace]. apply (send_all_logged (tr e) task_id entries 1).
Qed.

(** ** More on sessions *)



(** X21. A media message from a sender whose upload is in progress never
    ends the upload: accepted, refused for an empty file identifier,
    failed on a value that is not a list or failed on the save, the sender
    stays bound to the same task and nobody else's upload changes. *)
Theorem X21_upload_keeps_session (cfg : config) (e : env) (st : bot) (m : message) (t : Z) :
  fsm st !! fsm_key m = Some t →
  is_media m = true →
  fsm (after (dispatch_message cfg e st m)) = fsm st.
Proof.
  intros Hfsm Hmedia. rewrite (dispatch_upload cfg e st m t) by done.
  apply handle_file_upload_fsm.
Qed.

Lemma X21_upload_keeps_session_witness :
  fsm (after (dispatch_message Scenario.cfg Scenario.env_cut Scenario.filling5
                (Scenario.admin_msg (AudioMsg "B"))))
  = {[ (100, 100) := 5 ]}.
Proof.
  apply (X21_upload_keeps_session Scenario.cfg Scenario.env_cut Scenario.filling5
           (Scenario.admin_msg (AudioMsg "B")) 5); reflexivity.
Defined.

(** X22. [/checkme] tells the sender whether the sender is in
    [ADMIN_IDS], whether or not an upload is in progress, and changes
    nothing. *)
Theorem X22_checkme (cfg : config) (e : env) (st : bot) (m : message) :
  is_command cfg "checkme" m = true →
  let text := if bool_decide (from_user m ∈ ADMIN_IDS cfg)
              then msg_is_admin else msg_is_not_admin in
  trace (dispatch_message cfg e st m) = [Call (Reply text) (tr e 0%nat (Reply text))]
  ∧ after (dispatch_message cfg e st m) = st.
Proof.
  intros Hcmd text. subst text.
  assert (dispatch_message cfg e st m = cmd_checkme cfg e st m) as ->.
  { unfold dispatch_message.
    rewrite (is_command_other cfg m "checkme" "start"),
      (is_command_other cfg m "checkme" "add") by done.
    rewrite (is_command_not_media cfg m "checkme") by done.
    rewrite (is_command_other cfg m "checkme" "done") by done.
    rewrite Hcmd. by destruct (fsm st !! fsm_key m). }
  unfold cmd_checkme, is_admin. by destruct (bool_decide _).
Qed.

Lemma X22_checkme_witness :
  trace (dispatch_message Scenario.cfg Scenario.env_ok Scenario.filling5
           (Message 100 5 (Text "/checkme")))
  = [Call (Reply msg_is_not_admin) true]
  ∧ after (dispatch_message Scenario.cfg Scenario.env_ok Scenario.filling5
             (Message 100 5 (Text "/checkme")))
    = Scenario.filling5.
Proof.
  apply (X22_checkme Scenario.cfg Scenario.env_ok Scenario.filling5
           (Message 100 5 (Text "/checkme"))). reflexivity.
Defined.

(** X23. An accepted upload whose save is interrupted leaves a file the
    bot cannot start from: the next import ends with [JSONDecodeError],
    whatever the catalog held. *)
Theorem X23_interrupted_save_blocks_restart (cfg : config) (e : env) (st : bot)
    (m : message) (t : Z) (r : pyval) (old : list pyval) :
  fsm st !! fsm_key m = Some t →
  entry_of m = Some r →
  stored_list (materials st) t = Some old →
  write e = WriteInterrupted →
  startup (data_file (after (dispatch_message cfg e st m))) = Raise JSONDecodeError.
Proof.
  intros Hfsm Hr Hold Hw.
  rewrite (dispatch_upload cfg e st m t) by eauto using entry_of_is_media.
  destruct (handle_file_upload_accepts e st m t r old Hr Hold) as (c & _ & -> & _).
  by rewrite Hw.
Qed.

Lemma X23_interrupted_save_blocks_restart_witness :
  startup (data_file (after (dispatch_message Scenario.cfg Scenario.env_cut
                               Scenario.filling5 (Scenario.admin_msg (VideoMsg "B")))))
  = Raise JSONDecodeError.
Proof.
  apply (X23_interrupted_save_blocks_restart Scenario.cfg Scenario.env_cut
           Scenario.filling5 (Scenario.admin_msg (VideoMsg "B")) 5
           (media_entry "video" "B") [media_entry "document" "A"]); reflexivity.
Defined.
